(** * Inspection form: status/validity, persistence and batch reports

    A shallow embedding of the Python sources
    [date_validator.py], [database.py], [main.py] (form validation) and
    [report_generator.py] (batch generation), with the properties of the
    specification stated over it. *)

From Stdlib Require Import ZArith Lia Bool List Ascii String.
From stdpp Require Import gmap strings list pretty.

Local Open Scope Z_scope.

(** ** Python results: a value or a raised exception *)

Module Py.

(** The exceptions that the modelled code can meet; [IntegrityError] is
    [sqlite3.IntegrityError] and [RenderError] stands for an exception of the
    PDF library. *)
Inductive exn : Type :=
| ValueError
| OverflowError
| IntegrityError
| OSError
| TypeError
| AttributeError
| RenderError.

Inductive result (A : Type) : Type :=
| Ok (a : A)
| Raise (e : exn).

Arguments Ok {A} a.
Arguments Raise {A} e.

Definition bind {A B} (r : result A) (k : A -> result B) : result B :=
  match r with
  | Ok a => k a
  | Raise e => Raise e
  end.

(** [try: body  except ValueError: handler] *)
Definition except_ValueError {A} (body : result A) (handler : result A) : result A :=
  match body with
  | Raise ValueError => handler
  | r => r
  end.

(** [try: body  except Exception: handler] *)
Definition except_Exception {A} (body : result A) (handler : exn -> result A) : result A :=
  match body with
  | Raise e => handler e
  | r => r
  end.

Definition returns {A} (r : result A) : bool :=
  match r with Ok _ => true | Raise _ => false end.

End Py.

Import Py.

#[global] Instance result_ret : MRet result := fun A a => Ok a.
#[global] Instance result_bind : MBind result := fun A B k r => Py.bind r k.

(** ** The calendar of Python's [datetime] *)

Module Calendar.

Definition MINYEAR : Z := 1.
Definition MAXYEAR : Z := 9999.
Definition _MAXORDINAL : Z := 3652059.

Definition _DAYS_IN_MONTH : list Z :=
  [-1; 31; 28; 31; 30; 31; 30; 31; 31; 30; 31; 30; 31].

Definition _DAYS_BEFORE_MONTH : list Z :=
  [-1; 0; 31; 59; 90; 120; 151; 181; 212; 243; 273; 304; 334].

Definition tbl (t : list Z) (i : Z) : Z := nth (Z.to_nat i) t 0.

Definition _is_leap (year : Z) : bool :=
  (year mod 4 =? 0) && (negb (year mod 100 =? 0) || (year mod 400 =? 0)).

Definition _days_before_year (year : Z) : Z :=
  let y := year - 1 in
  y * 365 + y / 4 - y / 100 + y / 400.

Definition _days_in_month (year month : Z) : Z :=
  if (month =? 2) && _is_leap year then 29 else tbl _DAYS_IN_MONTH month.

Definition _days_before_month (year month : Z) : Z :=
  tbl _DAYS_BEFORE_MONTH month
  + (if (month >? 2) && _is_leap year then 1 else 0).

Definition _ymd2ord (year month day : Z) : Z :=
  _days_before_year year + _days_before_month year month + day.

Definition _DI400Y : Z := 146097.
Definition _DI100Y : Z := 36524.
Definition _DI4Y : Z := 1461.

Definition _ord2ymd (n : Z) : Z * Z * Z :=
  let n := n - 1 in
  let n400 := n / _DI400Y in
  let n := n mod _DI400Y in
  let year := n400 * 400 + 1 in
  let n100 := n / _DI100Y in
  let n := n mod _DI100Y in
  let n4 := n / _DI4Y in
  let n := n mod _DI4Y in
  let n1 := n / 365 in
  let n := n mod 365 in
  let year := year + n100 * 100 + n4 * 4 + n1 in
  if (n1 =? 4) || (n100 =? 4) then (year - 1, 12, 31)
  else
    let leapyear := (n1 =? 3) && (negb (n4 =? 24) || (n100 =? 3)) in
    let month := Z.shiftr (n + 50) 5 in
    let preceding :=
      tbl _DAYS_BEFORE_MONTH month
      + (if (month >? 2) && leapyear then 1 else 0) in
    if preceding >? n then
      let month := month - 1 in
      let preceding :=
        preceding
        - (tbl _DAYS_IN_MONTH month
           + (if (month =? 2) && leapyear then 1 else 0)) in
      (year, month, n - preceding + 1)
    else (year, month, n - preceding + 1).

(** The check of the [date(year, month, day)] constructor. *)
Definition _check_date_fields (year month day : Z) : bool :=
  (MINYEAR <=? year) && (year <=? MAXYEAR)
  && (1 <=? month) && (month <=? 12)
  && (1 <=? day) && (day <=? _days_in_month year month).

(** A [date], and a [datetime] at midnight, is represented by its
    proleptic Gregorian ordinal ([date.toordinal()]): comparison of dates
    is comparison of ordinals, and [(a - b).days] is their difference. *)
Definition date : Type := Z.

Definition valid_ordinal (n : Z) : bool := (1 <=? n) && (n <=? _MAXORDINAL).

(** [timedelta(days=d)]: the magnitude of [days] is limited. *)
Definition timedelta (days : Z) : result Z :=
  if Z.abs days <=? 999999999 then Ok days else Raise OverflowError.

(** [d + delta] on dates: out of the calendar is an [OverflowError]. *)
Definition date_add (d : date) (delta : Z) : result date :=
  if valid_ordinal (d + delta) then Ok (d + delta) else Raise OverflowError.

Definition date_sub (d : date) (delta : Z) : result date :=
  date_add d (- delta).



(** [d.weekday()]: Monday is 0 and Sunday is 6. *)
Definition weekday (d : date) : Z := (d + 6) mod 7.

End Calendar.

Import Calendar.

(** ** [datetime.strptime(s, '%Y-%m-%d')] and [strftime] *)

Module Strptime.

Local Open Scope string_scope.
Local Open Scope Z_scope.

(** Strings are sequences of 8-bit characters, a text of Python in UTF-8;
    the digits are the ASCII digits.  On a text of ASCII characters this is
    the [\d] of the regular expression, which in a text with other
    characters also takes the other decimal digits of Unicode: the
    properties of texts that are no dates are stated for [is_ascii] texts. *)
Definition digit (c : ascii) : option Z :=
  let n := Z.of_N (N_of_ascii c) in
  if (48 <=? n) && (n <=? 57) then Some (n - 48) else None.

Definition digit_char (d : Z) : ascii := ascii_of_N (Z.to_N (48 + d)).

Definition in_range (lo hi x : Z) : bool := (lo <=? x) && (x <=? hi).

(** [(?P<Y>\d\d\d\d)] *)
Definition re_Y (s : string) : option (Z * string) :=
  match s with
  | String c1 (String c2 (String c3 (String c4 r))) =>
      d1 ← digit c1; d2 ← digit c2; d3 ← digit c3; d4 ← digit c4;
      Some (1000 * d1 + 100 * d2 + 10 * d3 + d4, r)
  | _ => None
  end.

(** The literal [-] of the format. *)
Definition re_dash (s : string) : option string :=
  match s with
  | String c r => if Ascii.eqb c "-"%char then Some r else None
  | EmptyString => None
  end.

(** The alternatives of [(?P<m>1[0-2]|0[1-9]|[1-9])] that match a prefix of
    [s], in the order in which the regular expression tries them. *)
Definition re_m (s : string) : list (Z * string) :=
  match s with
  | String c1 r1 =>
      match digit c1 with
      | Some d1 =>
          let two :=
            match r1 with
            | String c2 r2 =>
                match digit c2 with
                | Some d2 =>
                    if ((d1 =? 1) && in_range 0 2 d2) || ((d1 =? 0) && in_range 1 9 d2)
                    then [(10 * d1 + d2, r2)] else []
                | None => []
                end
            | EmptyString => []
            end in
          let one := if in_range 1 9 d1 then [(d1, r1)] else [] in
          (two ++ one)%list
      | None => []
      end
  | EmptyString => []
  end.

(** [(?P<d>3[0-1]|[1-2]\d|0[1-9]|[1-9]| [1-9])]: the group is last in the
    format, so the first alternative that matches a prefix is taken. *)
Definition re_d (s : string) : option (Z * string) :=
  match s with
  | String c1 r1 =>
      let two :=
        match r1 with
        | String c2 r2 =>
            match digit c1, digit c2 with
            | Some d1, Some d2 =>
                if ((d1 =? 3) && in_range 0 1 d2) || in_range 1 2 d1
                   || ((d1 =? 0) && in_range 1 9 d2)
                then Some (10 * d1 + d2, r2) else None
            | _, _ => None
            end
        | EmptyString => None
        end in
      let one :=
        match digit c1 with
        | Some d1 => if in_range 1 9 d1 then Some (d1, r1) else None
        | None => None
        end in
      let blank :=
        match r1 with
        | String c2 r2 =>
            match digit c2 with
            | Some d2 =>
                if Ascii.eqb c1 " "%char && in_range 1 9 d2 then Some (d2, r2) else None
            | None => None
            end
        | EmptyString => None
        end in
      match two, one with
      | Some x, _ => Some x
      | None, Some x => Some x
      | None, None => blank
      end
  | EmptyString => None
  end.

Fixpoint first_some {A B} (f : A -> option B) (l : list A) : option B :=
  match l with
  | [] => None
  | x :: l' => match f x with Some y => Some y | None => first_some f l' end
  end.

(** The groups [m] and [d] around the second [-]: the first alternative
    of the month after which the rest of the expression matches. *)
Definition re_md (s : string) : option (Z * Z * string) :=
  first_some (fun '(m, r) => r ← re_dash r; '(d, r) ← re_d r; Some (m, d, r))
             (re_m s).

(** [format_regex.match(data_string)] for the format [%Y-%m-%d]: the groups
    and the unconverted remainder. *)
Definition re_match (s : string) : option (Z * Z * Z * string) :=
  '(y, r) ← re_Y s;
  r ← re_dash r;
  '(m, d, r) ← re_md r;
  Some (y, m, d, r).

(** [datetime.strptime(s, '%Y-%m-%d')]: a datetime at midnight, or
    [ValueError] (no match, unconverted data, or no such calendar day). *)
Definition strptime (s : string) : result date :=
  match re_match s with
  | None => Raise ValueError
  | Some (y, m, d, rest) =>
      if negb (String.eqb rest "") then Raise ValueError
      else if _check_date_fields y m d then Ok (_ymd2ord y m d)
      else Raise ValueError
  end.

(** The strings that are dates of the format [%Y-%m-%d]: those that
    [strptime] accepts (the month and the day may have one digit, as the
    regular expression of the format allows). *)
Definition well_formed (s : string) : bool := returns (strptime s).

Definition pad2 (n : Z) : string :=
  String (digit_char (n / 10)) (String (digit_char (n mod 10)) "").

(** The year of [%Y] with four digits, as the library documents it.  The C
    library of some platforms writes a year below 1000 without the zeros:
    the properties that state a text of [strftime] are for years from 1000
    on, see [year_has_four_digits]. *)
Definition pad4 (n : Z) : string :=
  String (digit_char (n / 1000))
    (String (digit_char (n / 100 mod 10))
       (String (digit_char (n / 10 mod 10))
          (String (digit_char (n mod 10)) ""))).

(** [strftime('%Y-%m-%d')] *)
Definition strftime_iso (dt : date) : string :=
  let '(y, m, d) := _ord2ymd dt in
  pad4 y +:+ "-" +:+ pad2 m +:+ "-" +:+ pad2 d.

(** [strftime('%d/%m/%Y')] *)
Definition strftime_br (dt : date) : string :=
  let '(y, m, d) := _ord2ymd dt in
  pad2 d +:+ "/" +:+ pad2 m +:+ "/" +:+ pad4 y.

(** The days from 1000-01-01 on: [%Y] has four digits on every platform. *)
Definition year_has_four_digits (dt : date) : bool := _ymd2ord 1000 1 1 <=? dt.

(** A text of ASCII characters. *)
Definition is_ascii (s : string) : bool :=
  forallb (fun c => (N_of_ascii c <? 128)%N) (list_ascii_of_string s).

(** *** Dates as they are written

    A description of the texts that are taken as dates that does not go
    through the regular expression: three fields between [-]. *)

(** [s.split('-')] *)
Fixpoint fields_of (s : string) : list string :=
  match s with
  | EmptyString => [EmptyString]
  | String c r =>
      if Ascii.eqb c "-"%char then EmptyString :: fields_of r
      else match fields_of r with
           | f :: fs => String c f :: fs
           | [] => [String c EmptyString]
           end
  end.

(** The year: four digits. *)
Definition year_field (f : string) : option Z :=
  match f with
  | String c1 (String c2 (String c3 (String c4 EmptyString))) =>
      d1 ← digit c1; d2 ← digit c2; d3 ← digit c3; d4 ← digit c4;
      Some (1000 * d1 + 100 * d2 + 10 * d3 + d4)
  | _ => None
  end.

(** The month: 1 to 9, or 01 to 12. *)
Definition month_field (f : string) : option Z :=
  match f with
  | String c EmptyString =>
      d ← digit c; if in_range 1 9 d then Some d else None
  | String c1 (String c2 EmptyString) =>
      d1 ← digit c1; d2 ← digit c2;
      if in_range 1 12 (10 * d1 + d2) then Some (10 * d1 + d2) else None
  | _ => None
  end.

(** The day: 1 to 9, 01 to 31, or a blank and 1 to 9. *)
Definition day_field (f : string) : option Z :=
  match f with
  | String c EmptyString =>
      d ← digit c; if in_range 1 9 d then Some d else None
  | String c1 (String c2 EmptyString) =>
      if Ascii.eqb c1 " "%char
      then d2 ← digit c2; if in_range 1 9 d2 then Some d2 else None
      else d1 ← digit c1; d2 ← digit c2;
           if in_range 1 31 (10 * d1 + d2) then Some (10 * d1 + d2) else None
  | _ => None
  end.

Definition date_fields (s : string) : option (Z * Z * Z) :=
  match fields_of s with
  | [yf; mf; df] =>
      y ← year_field yf; m ← month_field mf; d ← day_field df; Some (y, m, d)
  | _ => None
  end.

(** The text names a day of the calendar. *)
Definition written_as_date (s : string) : bool :=
  match date_fields s with
  | Some (y, m, d) => _check_date_fields y m d
  | None => false
  end.

Definition all_digits (f : string) : bool :=
  forallb (fun c => match digit c with Some _ => true | None => false end)
          (list_ascii_of_string f).

(** The fixed form YYYY-MM-DD: four, two and two digits. *)
Definition iso_form (s : string) : bool :=
  match fields_of s with
  | [yf; mf; df] =>
      (String.length yf =? 4)%nat && (String.length mf =? 2)%nat
      && (String.length df =? 2)%nat
      && all_digits yf && all_digits mf && all_digits df
  | _ => false
  end.

End Strptime.

Import Strptime.

(** ** [date_validator.py] *)

(** The dictionary returned by [get_inspection_status]; the two keys that
    only the regular branch sets are optional. *)
Module StatusInfo.
Record t : Type := mk {
  status : string;
  message : string;
  is_overdue : bool;
  days_until_due : Z;
  next_inspection_date : string;
  next_inspection_formatted : option string;
  last_inspection_formatted : string;
  last_inspection_date : option string
}.
End StatusInfo.

Module DateValidator.

Local Open Scope string_scope.
Local Open Scope Z_scope.

Section Today.

(** [datetime.now().date()] *)
Variable today : date.

Definition validate_inspection_date (date_str : string) : result (bool * string) :=
  except_ValueError
    (if String.eqb date_str "" then Ok (false, "Data de inspeção é obrigatória")
     else
       inspection_date ← strptime date_str;
       if inspection_date >? today
       then Ok (false, "Data de inspeção não pode ser no futuro")
       else
         delta ← timedelta 30;
         limit ← date_sub today delta;
         if inspection_date <? limit
         then Ok (false, "Data de inspeção não pode ser há mais de 30 dias")
         else Ok (true, "Data válida"))
    (Ok (false, "Formato de data inválido. Use YYYY-MM-DD")).

Definition validate_last_inspection_date (date_str : string) : result (bool * string) :=
  except_ValueError
    (if String.eqb date_str "" then Ok (false, "Data da última inspeção é obrigatória")
     else
       last_date ← strptime date_str;
       if last_date >? today
       then Ok (false, "Data da última inspeção não pode ser no futuro")
       else
         delta ← timedelta 3650;
         limit ← date_sub today delta;
         if last_date <? limit
         then Ok (false, "Data da última inspeção não pode ser há mais de 10 anos")
         else Ok (true, "Data válida"))
    (Ok (false, "Formato de data inválido. Use YYYY-MM-DD")).

Definition calculate_next_inspection_date
    (last_inspection_date : string) (validity_months : Z) : result string :=
  except_ValueError
    (last_date ← strptime last_inspection_date;
     delta ← timedelta (validity_months * 30);
     next_date ← date_add last_date delta;
     Ok (strftime_iso next_date))
    (Ok "").

Definition is_overdue
    (last_inspection_date : string) (validity_months : Z) : result bool :=
  except_ValueError
    (if String.eqb last_inspection_date "" then Ok false
     else
       last_date ← strptime last_inspection_date;
       delta ← timedelta (validity_months * 30);
       due_date ← date_add last_date delta;
       Ok (today >? due_date))
    (Ok false).

Definition get_days_until_due
    (last_inspection_date : string) (validity_months : Z) : result Z :=
  except_ValueError
    (if String.eqb last_inspection_date "" then Ok 0
     else
       last_date ← strptime last_inspection_date;
       delta ← timedelta (validity_months * 30);
       due_date ← date_add last_date delta;
       Ok (due_date - today))
    (Ok 0).

Definition get_inspection_status
    (last_inspection_date : string) (validity_months : Z) : result StatusInfo.t :=
  except_ValueError
    (if String.eqb last_inspection_date "" then
       Ok (StatusInfo.mk "unknown" "Data não informada" false 0 "" None "" None)
     else
       last_date ← strptime last_inspection_date;
       delta ← timedelta (validity_months * 30);
       next_date ← date_add last_date delta;
       let days_until_due := next_date - today in
       let '(status, message) :=
         if days_until_due <? 0 then ("overdue", "Inspeção vencida!")
         else if days_until_due <=? 30 then ("warning", "Inspeção vence em breve")
         else if days_until_due <=? 90
              then ("attention", "Inspeção vence em alguns meses")
         else ("ok", "Inspeção em dia") in
       Ok (StatusInfo.mk status message (days_until_due <? 0) days_until_due
             (strftime_iso next_date) (Some (strftime_br next_date))
             (strftime_br last_date) (Some last_inspection_date)))
    (Ok (StatusInfo.mk "error" "Erro ao processar data" false 0 "" None "" None)).

End Today.

(** [validate_date_range] does not read the clock. *)
Definition validate_date_range (start_date end_date : string) : result (bool * string) :=
  except_ValueError
    (if String.eqb start_date "" || String.eqb end_date ""
     then Ok (false, "Ambas as datas são obrigatórias")
     else
       start ← strptime start_date;
       end_ ← strptime end_date;
       if start >? end_
       then Ok (false, "Data inicial não pode ser posterior à data final")
       else if end_ - start >? 365
       then Ok (false, "Intervalo não pode ser maior que 1 ano")
       else Ok (true, "Intervalo válido"))
    (Ok (false, "Formato de data inválido. Use YYYY-MM-DD")).

Section Display.

Variable today : date.
(** The full name of a month in the locale of the process ([%B]). *)
Variable month_name : Z -> string.

(** [strftime('%d de %B de %Y')] *)
Definition strftime_long (dt : date) : string :=
  let '(y, m, d) := _ord2ymd dt in
  pad2 d +:+ " de " +:+ month_name m +:+ " de " +:+ pad4 y.

Definition format_date_for_display (date_str : string) (format_type : string)
    : result string :=
  except_ValueError
    (if String.eqb date_str "" then Ok ""
     else
       date_obj ← strptime date_str;
       if String.eqb format_type "short" then Ok (strftime_br date_obj)
       else if String.eqb format_type "long" then Ok (strftime_long date_obj)
       else if String.eqb format_type "relative" then
         let delta := today - date_obj in
         if delta =? 0 then Ok "Hoje"
         else if delta =? 1 then Ok "Ontem"
         else if delta =? -1 then Ok "Amanhã"
         else if delta >? 0 then Ok ("Há " +:+ pretty delta +:+ " dias")
         else Ok ("Em " +:+ pretty (Z.abs delta) +:+ " dias")
       else Ok (strftime_br date_obj))
    (Ok date_str).

(** [format_date], the function of the module. *)
Definition format_date (date_str : string) : result string :=
  format_date_for_display date_str "short".

End Display.



(** The loop [while current <= end] of [get_working_days_between]. *)
Fixpoint working_days_loop (fuel : nat) (current end_ : date) (working_days : Z)
    : option (result Z) :=
  match fuel with
  | O => None
  | S fuel' =>
      if current <=? end_ then
        let working_days :=
          if weekday current <? 5 then working_days + 1 else working_days in
        match (delta ← timedelta 1; date_add current delta) with
        | Ok next => working_days_loop fuel' next end_ working_days
        | Raise e => Some (Raise e)
        end
      else Some (Ok working_days)
  end.

Definition get_working_days_between (start_date end_date : string)
    : option (result Z) :=
  match (start ← strptime start_date; end_ ← strptime end_date; Ok (start, end_)) with
  | Ok (start, end_) =>
      match working_days_loop (S (Z.to_nat (end_ - start + 1))) start end_ 0 with
      | Some r => Some (except_ValueError r (Ok 0))
      | None => None
      end
  | Raise ValueError => Some (Ok 0)
  | Raise e => Some (Raise e)
  end.

(** The functions of the module, outside the class. *)

Definition is_vencido (today : date) (ultima_inspecao : string) : result bool :=
  is_overdue today ultima_inspecao 12.

Definition add_days (date_str : string) (days : Z) : result string :=
  except_ValueError
    (date_obj ← strptime date_str;
     delta ← timedelta days;
     new_date ← date_add date_obj delta;
     Ok (strftime_iso new_date))
    (Ok date_str).

End DateValidator.

(** ** [database.py] *)

Module Database.

Local Open Scope string_scope.
Local Open Scope Z_scope.

(** The values of a [Dict[str, Any]] of the application: [None], a [str]
    or an [int].  A value bound to a column is stored as it is given. *)
Inductive value : Type :=
| VNone
| VStr (s : string)
| VInt (n : Z).

(** [str(v)] *)
Definition str (v : value) : string :=
  match v with
  | VNone => "None"
  | VStr s => s
  | VInt n => pretty n
  end.

(** Truth value of [v] in a condition. *)
Definition truthy (v : value) : bool :=
  match v with
  | VNone => false
  | VStr s => negb (String.eqb s "")
  | VInt n => negb (n =? 0)
  end.

(** [d.get(key, '')] on the dictionary submitted by a caller. *)
Definition get (data : gmap string value) (key : string) : value :=
  default (VStr "") (data !! key).

(** A row of table [inspecoes]. *)
Record inspecao : Type := mk_inspecao {
  id : Z;
  plataforma : value;
  modulo : value;
  setor : value;
  tipo_equipamento : value;
  tag : value;
  defeito : value;
  causa : value;
  categoria_rti : value;
  recomendacao : value;
  ultima_inspecao : value;
  data_inspecao : value;
  tipo_dano : value;
  observacoes : value;
  foto_path : value;
  created_at : value;
  updated_at : value
}.

(** A row of table [historico_alteracoes]. *)
Record historico : Type := mk_historico {
  h_id : Z;
  inspecao_id : Z;
  campo : string;
  valor_anterior : string;
  valor_novo : string;
  data_alteracao : string
}.

(** The committed content of the two tables, rows in rowid order, and the
    AUTOINCREMENT counters of [sqlite_sequence]. *)
Record db : Type := mk_db {
  inspecoes : list inspecao;
  historico_alteracoes : list historico;
  seq_inspecoes : Z;
  seq_historico : Z
}.

(** The file system as the operations see it: the paths for which
    [os.path.exists] holds, and those on which [os.remove] raises. *)
Record filesystem : Type := mk_fs {
  files : gset string;
  undeletable : gset string
}.

Definition path_exists (f : filesystem) (p : value) : bool :=
  match p with
  | VStr s => bool_decide (s ∈ files f)
  | _ => false
  end.

Definition os_remove (f : filesystem) (p : value) : result filesystem :=
  match p with
  | VStr s =>
      if bool_decide (s ∈ files f) && negb (bool_decide (s ∈ undeletable f))
      then Ok (mk_fs (files f ∖ {[s]}) (undeletable f))
      else Raise OSError
  | _ => Raise OSError
  end.

(** [dict(row)]: the columns in the order of the table. *)
Definition dict_of_row (r : inspecao) : list (string * value) :=
  [("id", VInt (id r));
   ("plataforma", plataforma r);
   ("modulo", modulo r);
   ("setor", setor r);
   ("tipo_equipamento", tipo_equipamento r);
   ("tag", tag r);
   ("defeito", defeito r);
   ("causa", causa r);
   ("categoria_rti", categoria_rti r);
   ("recomendacao", recomendacao r);
   ("ultima_inspecao", ultima_inspecao r);
   ("data_inspecao", data_inspecao r);
   ("tipo_dano", tipo_dano r);
   ("observacoes", observacoes r);
   ("foto_path", foto_path r);
   ("created_at", created_at r);
   ("updated_at", updated_at r)].

(** [d.get(key, dflt)] on a [dict(row)]. *)
Fixpoint dict_get (d : list (string * value)) (key : string) (dflt : value) : value :=
  match d with
  | [] => dflt
  | (k, v) :: d' => if String.eqb k key then v else dict_get d' key dflt
  end.

Definition is_null (v : value) : bool :=
  match v with VNone => true | _ => false end.

(** The NOT NULL constraints of table [inspecoes]. *)
Definition not_null_ok (r : inspecao) : bool :=
  negb (is_null (plataforma r) || is_null (modulo r) || is_null (setor r)
        || is_null (tipo_equipamento r) || is_null (tag r) || is_null (defeito r)
        || is_null (causa r) || is_null (categoria_rti r)
        || is_null (recomendacao r) || is_null (ultima_inspecao r)
        || is_null (data_inspecao r) || is_null (tipo_dano r)).

Definition max_id (rows : list inspecao) : Z :=
  fold_right (fun r m => Z.max (id r) m) 0 rows.

Definition max_h_id (rows : list historico) : Z :=
  fold_right (fun r m => Z.max (h_id r) m) 0 rows.

(** [INSERT INTO inspecoes (...) VALUES (...)]: the new rowid and the table. *)
Definition sql_insert_inspecao (r : Z -> inspecao) (d : db) : result (Z * db) :=
  let new_id := Z.max (seq_inspecoes d) (max_id (inspecoes d)) + 1 in
  if not_null_ok (r new_id)
  then Ok (new_id,
           mk_db (inspecoes d ++ [r new_id]) (historico_alteracoes d)
                 new_id (seq_historico d))
  else Raise IntegrityError.

(** [INSERT INTO historico_alteracoes]: the foreign key needs its parent. *)
Definition sql_insert_historico
    (current_timestamp : string) (inspection_id : Z)
    (field old_value new_value : string) (d : db) : result db :=
  let new_id := Z.max (seq_historico d) (max_h_id (historico_alteracoes d)) + 1 in
  if existsb (fun r => id r =? inspection_id) (inspecoes d)
  then Ok (mk_db (inspecoes d)
                 (historico_alteracoes d
                  ++ [mk_historico new_id inspection_id field old_value new_value
                                   current_timestamp])
                 (seq_inspecoes d) new_id)
  else Raise IntegrityError.

(** [UPDATE inspecoes SET ... WHERE id = ?] *)
Definition sql_update_inspecao
    (inspection_id : Z) (upd : inspecao -> inspecao) (d : db) : result db :=
  let rows := map (fun r => if id r =? inspection_id then upd r else r) (inspecoes d) in
  if forallb not_null_ok
       (map upd (List.filter (fun r => id r =? inspection_id) (inspecoes d)))
  then Ok (mk_db rows (historico_alteracoes d) (seq_inspecoes d) (seq_historico d))
  else Raise IntegrityError.

(** [DELETE FROM inspecoes [WHERE ...]]: with [PRAGMA foreign_keys = ON] a
    row that a change-log row references cannot be deleted. *)
Definition sql_delete_inspecoes (doomed : inspecao -> bool) (d : db) : result db :=
  if existsb
       (fun r => doomed r
                 && existsb (fun h => inspecao_id h =? id r) (historico_alteracoes d))
       (inspecoes d)
  then Raise IntegrityError
  else Ok (mk_db (List.filter (fun r => negb (doomed r)) (inspecoes d))
                 (historico_alteracoes d) (seq_inspecoes d) (seq_historico d)).

(** [DELETE FROM historico_alteracoes] *)
Definition sql_delete_historico (d : db) : db :=
  mk_db (inspecoes d) [] (seq_inspecoes d) (seq_historico d).

Section Clock.

(** [datetime.now().isoformat()] and SQLite's [CURRENT_TIMESTAMP]. *)
Variable now : string.
Variable current_timestamp : string.

(** Every operation ends in a commit or a rollback, so the state at entry
    is the committed one and a rollback returns it. *)

Definition save_inspection (data : gmap string value) (d : db) : result Z * db :=
  let inspection_data new_id :=
    mk_inspecao new_id
      (get data "plataforma") (get data "modulo") (get data "setor")
      (get data "tipoEquipamento") (get data "tag") (get data "defeito")
      (get data "causa") (get data "categoriaRTI") (get data "recomendacao")
      (get data "ultima") (get data "data") (get data "tipoDano")
      (get data "observacoes") (get data "foto_path")
      (VStr now) (VStr now) in
  match sql_insert_inspecao inspection_data d with
  | Ok (inspection_id, d') => (Ok inspection_id, d')
  | Raise e => (Raise e, d)
  end.

Definition get_inspection_by_id (inspection_id : Z) (d : db)
    : option (list (string * value)) :=
  match List.filter (fun r => id r =? inspection_id) (inspecoes d) with
  | row :: _ => Some (dict_of_row row)
  | [] => None
  end.

(** The loop of [_log_changes]; an exception leaves it, and the rows
    written before stay. *)
Fixpoint log_fields (inspection_id : Z) (old_data : list (string * value))
    (new_data : gmap string value) (fields : list string) (d : db) : db :=
  match fields with
  | [] => d
  | field :: rest =>
      if existsb (String.eqb field) ["id"; "created_at"; "updated_at"]
      then log_fields inspection_id old_data new_data rest d
      else
        let old_value := str (dict_get old_data field (VStr "")) in
        let new_value := str (get new_data field) in
        if negb (String.eqb old_value new_value)
        then
          match sql_insert_historico current_timestamp inspection_id
                  field old_value new_value d with
          | Ok d' => log_fields inspection_id old_data new_data rest d'
          | Raise _ => d
          end
        else log_fields inspection_id old_data new_data rest d
  end.

Definition _log_changes (inspection_id : Z) (old_data : list (string * value))
    (new_data : gmap string value) (d : db) : db :=
  log_fields inspection_id old_data new_data (map fst old_data) d.

Definition update_inspection (inspection_id : Z) (data : gmap string value)
    (d : db) : bool * db :=
  match get_inspection_by_id inspection_id d with
  | None => (false, d)
  | Some current_data =>
      let update_data (r : inspecao) :=
        mk_inspecao (id r)
          (get data "plataforma") (get data "modulo") (get data "setor")
          (get data "tipoEquipamento") (get data "tag") (get data "defeito")
          (get data "causa") (get data "categoriaRTI") (get data "recomendacao")
          (get data "ultima") (get data "data") (get data "tipoDano")
          (get data "observacoes") (get data "foto_path")
          (created_at r) (VStr now) in
      match sql_update_inspecao inspection_id update_data d with
      | Ok d1 => (true, _log_changes inspection_id current_data data d1)
      | Raise _ => (false, d)
      end
  end.

End Clock.

(** The guarded removal of one photo: a failure is printed and ignored. *)
Definition remove_photo (f : filesystem) (path : value) : filesystem :=
  if truthy path && path_exists f path
  then match os_remove f path with
       | Ok f' => f'
       | Raise _ => f
       end
  else f.

Definition delete_inspection (inspection_id : Z) (w : db * filesystem)
    : bool * (db * filesystem) :=
  let '(d, f) := w in
  let f1 :=
    match get_inspection_by_id inspection_id d with
    | Some inspection => remove_photo f (dict_get inspection "foto_path" VNone)
    | None => f
    end in
  match sql_delete_inspecoes (fun r => id r =? inspection_id) d with
  | Ok d1 => (true, (d1, f1))
  | Raise _ => (false, (d, f1))
  end.

Definition clear_all_inspections (w : db * filesystem) : bool * (db * filesystem) :=
  let '(d, f) := w in
  let rows := List.filter (fun p => negb (is_null p)) (map foto_path (inspecoes d)) in
  let f1 := fold_left remove_photo rows f in
  match sql_delete_inspecoes (fun _ => true) d with
  | Ok d1 => (true, (sql_delete_historico d1, f1))
  | Raise _ => (false, (d, f1))
  end.

End Database.

(** ** [report_generator.py] *)

Module ReportGenerator.

Import Database.

Local Open Scope string_scope.
Local Open Scope list_scope.
Local Open Scope Z_scope.

Inductive style : Type :=
| title_style
| subtitle_style
| section_style
| normal_style
| small_style.

(** The flowables a story is made of. *)
Inductive flowable : Type :=
| Paragraph (text : value) (st : style)
| Spacer (width height : Z)
| Table (cells : list (list value))
| Image (path : string).

(** [d.get(key, dflt)] *)
Definition get_or (data : gmap string value) (key : string) (dflt : value) : value :=
  default dflt (data !! key).

Fixpoint basename_from (s : string) (acc : string) : string :=
  match s with
  | EmptyString => acc
  | String c r =>
      if Ascii.eqb c "/"%char then basename_from r "" else basename_from r (acc +:+ String c "")
  end.

(** [os.path.basename] *)
Definition basename (p : string) : string := basename_from p "".

Fixpoint ends_with_slash (s : string) : bool :=
  match s with
  | EmptyString => false
  | String c EmptyString => Ascii.eqb c "/"%char
  | String _ r => ends_with_slash r
  end.

(** [os.path.join(a, b)] for a relative [b]. *)
Definition path_join (a b : string) : string :=
  if String.eqb a "" || ends_with_slash a then a +:+ b else a +:+ "/" +:+ b.

Section Generator.

Variable output_dir : string.
(** [datetime.now().date()], and the text of [datetime.now()] in the footer. *)
Variable today : date.
Variable generated_at : string.
(** The file system the generator reads. *)
Variable fs : filesystem.
(** [Image(path, ...)]: the text of the exception it raises, if any. *)
Variable image_error : string -> option string.
(** [doc.build(story)] of the PDF library for the document at a path.  It
    stands for the library as a whole: the markup of a [Paragraph], which
    the library reads when the paragraph is made, is a failure of
    [doc_build] on the story that has the paragraph. *)
Variable doc_build : string -> list flowable -> result unit.

Definition _create_basic_info_section (data : gmap string value) : list flowable :=
  [Paragraph (VStr "INFORMAÇÕES BÁSICAS") subtitle_style;
   Table [[VStr "Campo"; VStr "Valor"];
          [VStr "Plataforma"; get_or data "plataforma" (VStr "N/A")];
          [VStr "Módulo"; get_or data "modulo" (VStr "N/A")];
          [VStr "Setor"; get_or data "setor" (VStr "N/A")];
          [VStr "Tipo de Equipamento"; get_or data "tipoEquipamento" (VStr "N/A")];
          [VStr "TAG"; get_or data "tag" (VStr "N/A")]]].

Definition _create_inspection_details_section (data : gmap string value)
    : list flowable :=
  [Paragraph (VStr "DETALHES DA INSPEÇÃO") subtitle_style;
   Table [[VStr "Campo"; VStr "Valor"];
          [VStr "Data da Última Inspeção"; get_or data "ultima" (VStr "N/A")];
          [VStr "Data da Inspeção Atual"; get_or data "data" (VStr "N/A")];
          [VStr "Tipo de Dano"; get_or data "tipoDano" (VStr "N/A")];
          [VStr "Defeito Identificado"; get_or data "defeito" (VStr "N/A")];
          [VStr "Causa do Defeito"; get_or data "causa" (VStr "N/A")];
          [VStr "Categoria RTI"; get_or data "categoriaRTI" (VStr "N/A")];
          [VStr "Recomendação"; get_or data "recomendacao" (VStr "N/A")]]]
  ++ (if truthy (get_or data "observacoes" VNone)
      then [Spacer 1 15;
            Paragraph (VStr "OBSERVAÇÕES:") section_style;
            Paragraph (get_or data "observacoes" VNone) normal_style]
      else []).

Definition _create_photo_section (photo_path : string) : list flowable :=
  Paragraph (VStr "FOTO DA INSPEÇÃO") subtitle_style
  :: match image_error photo_path with
     | None =>
         [Image photo_path;
          Paragraph (VStr ("Arquivo: " +:+ basename photo_path)) small_style]
     | Some e => [Paragraph (VStr ("Erro ao carregar foto: " +:+ e)) normal_style]
     end.

Definition _create_status_section (data : gmap string value)
    : result (list flowable) :=
  let last_inspection := get_or data "ultima" (VStr "") in
  if truthy last_inspection then
    status_info ←
      match last_inspection with
      | VStr s => DateValidator.get_inspection_status today s 12
      | _ => Raise TypeError
      end;
    Ok [Paragraph (VStr "STATUS E RECOMENDAÇÕES") subtitle_style;
        Table [[VStr "Status"; VStr "Descrição"];
               [VStr "Última Inspeção";
                VStr (StatusInfo.last_inspection_formatted status_info)];
               [VStr "Próxima Inspeção";
                VStr (default "N/A" (StatusInfo.next_inspection_formatted status_info))];
               [VStr "Dias até Vencimento";
                VStr (pretty (StatusInfo.days_until_due status_info))];
               [VStr "Mensagem"; VStr (StatusInfo.message status_info)]]]
  else Ok [Paragraph (VStr "STATUS E RECOMENDAÇÕES") subtitle_style].

Definition _create_footer_section : list flowable :=
  [Spacer 1 30;
   Paragraph (VStr "__________________________________________________") normal_style;
   Paragraph (VStr ("Relatório gerado em: " +:+ generated_at)) small_style;
   Paragraph (VStr "Sistema de Inspeção de Equipamentos") small_style].

(** The photo block of [generate_inspection_report]: present only for a
    path that is given and exists. *)
Definition photo_block (photo_path : value) : list flowable :=
  if truthy photo_path && path_exists fs photo_path
  then match photo_path with
       | VStr p => _create_photo_section p ++ [Spacer 1 20]
       | _ => []
       end
  else [].

(** [timestamp] is [datetime.now().strftime('%Y%m%d_%H%M%S')] at the call.
    Any exception is printed and raised again. *)
Definition generate_inspection_report (timestamp : string)
    (inspection_data : gmap string value) (photo_path : value) : result string :=
  let equipment_tag := get_or inspection_data "tag" (VStr "UNKNOWN") in
  let filename :=
    "relatorio_inspecao_" +:+ str equipment_tag +:+ "_" +:+ timestamp +:+ ".pdf" in
  let filepath := path_join output_dir filename in
  status ← _create_status_section inspection_data;
  let story :=
    [Paragraph (VStr "RELATÓRIO DE INSPEÇÃO DE EQUIPAMENTO") title_style; Spacer 1 20]
    ++ _create_basic_info_section inspection_data ++ [Spacer 1 20]
    ++ _create_inspection_details_section inspection_data ++ [Spacer 1 20]
    ++ photo_block photo_path
    ++ status ++ [Spacer 1 20]
    ++ _create_footer_section in
  _ ← doc_build filepath story;
  Ok filepath.

(** What [generate_batch_reports] prints. *)
Inductive log_line : Type :=
| Generated (i n : nat) (name : string)
| Failed (i : nat) (e : exn)
| Summary (generated total : nat).

(** The clock of the calls: [clock i] is the timestamp of report [i]. *)
Variable clock : nat -> string.

(** The loop over [enumerate(inspections, 1)]. *)
Fixpoint batch_loop (n : nat) (i : nat) (inspections : list (gmap string value))
    (generated_files : list string) (log : list log_line)
    : list string * list log_line :=
  match inspections with
  | [] => (generated_files, log)
  | inspection :: rest =>
      let photo_path := get_or inspection "foto_path" VNone in
      match generate_inspection_report (clock i) inspection photo_path with
      | Ok pdf_path =>
          batch_loop n (S i) rest (generated_files ++ [pdf_path])
                     (log ++ [Generated i n (basename pdf_path)])
      | Raise e =>
          batch_loop n (S i) rest generated_files (log ++ [Failed i e])
      end
  end.

Definition generate_batch_reports (inspections : list (gmap string value))
    : list string * list log_line :=
  let n := length inspections in
  let '(generated_files, log) := batch_loop n 1 inspections [] [] in
  (generated_files, log ++ [Summary (length generated_files) n]).

(** The call that the batch makes for the record at position [i], and the
    number of records, from position [i] on, for which it returns. *)
Definition report_of (i : nat) (inspection : gmap string value) : result string :=
  generate_inspection_report (clock i) inspection (get_or inspection "foto_path" VNone).

Fixpoint count_returned (i : nat) (inspections : list (gmap string value)) : nat :=
  match inspections with
  | [] => 0
  | inspection :: rest =>
      (if returns (report_of i inspection) then 1 else 0) + count_returned (S i) rest
  end.

Definition is_failed (l : log_line) : bool :=
  match l with Failed _ _ => true | _ => false end.

(** The count of the overdue records in the loop of
    [_create_summary_statistics].  (The loop also tallies the equipment
    types and the platforms; the section does not use the tallies.) *)
Fixpoint count_overdue (inspections : list (gmap string value)) : result Z :=
  match inspections with
  | [] => Ok 0%Z
  | inspection :: rest =>
      let last_inspection := get_or inspection "ultima" (VStr "") in
      overdue ←
        (if truthy last_inspection then
           match last_inspection with
           | VStr s => DateValidator.is_overdue today s 12
           | _ => Raise TypeError
           end
         else Ok false);
      overdue_count ← count_overdue rest;
      Ok ((if (overdue : bool) then 1 else 0) + overdue_count)%Z
  end.

Definition _create_summary_statistics (inspections : list (gmap string value))
    : result (list flowable) :=
  let total_inspections := Z.of_nat (length inspections) in
  overdue_count ← count_overdue inspections;
  Ok [Paragraph (VStr "ESTATÍSTICAS GERAIS") subtitle_style;
      Table [[VStr "Métrica"; VStr "Valor"];
             [VStr "Total de Inspeções"; VStr (pretty total_inspections)];
             [VStr "Inspeções Vencidas"; VStr (pretty overdue_count)];
             [VStr "Inspeções em Dia";
              VStr (pretty (total_inspections - overdue_count)%Z)]]].

(** The status column of [_create_summary_table]: the message of the
    status, for every value but the text N/A. *)
Definition summary_status (last_inspection : value) : result value :=
  match last_inspection with
  | VStr s =>
      if String.eqb s "N/A" then Ok (VStr "N/A")
      else
        status_info ← DateValidator.get_inspection_status today s 12;
        Ok (VStr (StatusInfo.message status_info))
  | VNone => Ok (VStr "Data não informada")
  | VInt n => if (n =? 0)%Z then Ok (VStr "Data não informada") else Raise TypeError
  end.

Fixpoint summary_rows (inspections : list (gmap string value))
    : result (list (list value)) :=
  match inspections with
  | [] => Ok []
  | inspection :: rest =>
      let tag := get_or inspection "tag" (VStr "N/A") in
      let eq_type := get_or inspection "tipoEquipamento" (VStr "N/A") in
      let platform := get_or inspection "plataforma" (VStr "N/A") in
      let last_inspection := get_or inspection "ultima" (VStr "N/A") in
      status ← summary_status last_inspection;
      rows ← summary_rows rest;
      Ok ([tag; eq_type; platform; last_inspection; status] :: rows)
  end.

Definition _create_summary_table (inspections : list (gmap string value))
    : result (list flowable) :=
  rows ← summary_rows inspections;
  Ok [Paragraph (VStr "RESUMO DAS INSPEÇÕES") subtitle_style;
      Table ([VStr "TAG"; VStr "Tipo"; VStr "Plataforma"; VStr "Última Inspeção";
              VStr "Status"] :: rows)].

Definition generate_summary_report (timestamp : string)
    (inspections : list (gmap string value)) : result string :=
  let filename := "relatorio_resumo_inspecoes_" +:+ timestamp +:+ ".pdf" in
  let filepath := path_join output_dir filename in
  statistics ← _create_summary_statistics inspections;
  table ← _create_summary_table inspections;
  let story :=
    [Paragraph (VStr "RELATÓRIO RESUMO DE INSPEÇÕES") title_style; Spacer 1 20]
    ++ statistics ++ [Spacer 1 20]
    ++ table ++ [Spacer 1 20]
    ++ _create_footer_section in
  _ ← doc_build filepath story;
  Ok filepath.

End Generator.

End ReportGenerator.

(** ** [main.py]: the form and its save command *)

Module InspectionFormApp.

Import Database.

Local Open Scope string_scope.
Local Open Scope list_scope.
Local Open Scope Z_scope.

(** The variables of the form the save command reads. *)
Record form : Type := mk_form {
  plataforma_var : string;
  modulo_var : string;
  setor_var : string;
  tipo_equipamento_var : string;
  tag_var : string;
  defeito_var : string;
  causa_var : string;
  categoria_rti_var : string;
  recomendacao_var : string;
  ultima_var : string;
  data_var : string;
  tipo_dano_var : string;
  observacoes_text : string;
  current_photo_path : option string
}.

Inductive dialog : Type :=
| showerror (title message : string)
| showinfo (title message : string).

(** White space for [str.strip()] among the ASCII characters; the
    properties of stripped texts are stated for [is_ascii] texts. *)
Definition is_space (c : ascii) : bool :=
  let n := N_of_ascii c in
  ((9 <=? n) && (n <=? 13) || (28 <=? n) && (n <=? 32))%N.

Fixpoint lstrip (s : string) : string :=
  match s with
  | String c r => if is_space c then lstrip r else s
  | EmptyString => EmptyString
  end.

Fixpoint rstrip (s : string) : string :=
  match s with
  | String c r =>
      match rstrip r with
      | EmptyString => if is_space c then EmptyString else String c EmptyString
      | r' => String c r'
      end
  | EmptyString => EmptyString
  end.

(** [s.strip()] *)
Definition strip (s : string) : string := rstrip (lstrip s).

(** [getattr(self, name).get()] for the variables of the form. *)
Definition getattr_get (f : form) (name : string) : result string :=
  if String.eqb name "plataforma_var" then Ok (plataforma_var f)
  else if String.eqb name "modulo_var" then Ok (modulo_var f)
  else if String.eqb name "setor_var" then Ok (setor_var f)
  else if String.eqb name "tipo_equipamento_var" then Ok (tipo_equipamento_var f)
  else if String.eqb name "tag_var" then Ok (tag_var f)
  else if String.eqb name "defeito_var" then Ok (defeito_var f)
  else if String.eqb name "causa_var" then Ok (causa_var f)
  else if String.eqb name "categoria_rti_var" then Ok (categoria_rti_var f)
  else if String.eqb name "recomendacao_var" then Ok (recomendacao_var f)
  else if String.eqb name "ultima_var" then Ok (ultima_var f)
  else if String.eqb name "data_var" then Ok (data_var f)
  else if String.eqb name "tipo_dano_var" then Ok (tipo_dano_var f)
  else Raise AttributeError.

Definition required_fields : list (string * string) :=
  [("plataforma", "Plataforma");
   ("modulo", "Módulo");
   ("setor", "Setor");
   ("tipoEquipamento", "Tipo de Equipamento");
   ("defeito", "Defeito");
   ("causa", "Causa");
   ("categoriaRTI", "Categoria RTI");
   ("recomendacao", "Recomendação");
   ("ultima", "Data da Última Inspeção");
   ("data", "Data da Inspeção Atual");
   ("tipoDano", "Tipo de Dano")].

(** The loop of [validate_form]: the flag it returns and the dialog shown. *)
Fixpoint validate_fields (f : form) (fields : list (string * string))
    : result (bool * list dialog) :=
  match fields with
  | [] => Ok (true, [])
  | (field_var, field_name) :: rest =>
      raw ← getattr_get f (field_var +:+ "_var");
      let value := strip raw in
      if String.eqb value ""
      then Ok (false,
               [showerror "Validação" ("Campo '" +:+ field_name +:+ "' é obrigatório!")])
      else validate_fields f rest
  end.

Definition validate_form (f : form) : result (bool * list dialog) :=
  validate_fields f required_fields.

Definition collect_form_data (f : form) : gmap string value :=
  list_to_map
    [("plataforma", VStr (strip (plataforma_var f)));
     ("modulo", VStr (strip (modulo_var f)));
     ("setor", VStr (strip (setor_var f)));
     ("tipoEquipamento", VStr (strip (tipo_equipamento_var f)));
     ("tag", VStr (strip (tag_var f)));
     ("defeito", VStr (strip (defeito_var f)));
     ("causa", VStr (strip (causa_var f)));
     ("categoriaRTI", VStr (strip (categoria_rti_var f)));
     ("recomendacao", VStr (strip (recomendacao_var f)));
     ("ultima", VStr (strip (ultima_var f)));
     ("data", VStr (strip (data_var f)));
     ("tipoDano", VStr (strip (tipo_dano_var f)));
     ("observacoes", VStr (strip (observacoes_text f)));
     ("foto_path", VStr (default "" (current_photo_path f)))].

Section App.

Variable now : string.
(** The report generator of the application. *)
Variable generate_inspection_report : gmap string value -> value -> result string.
(** The text of an exception in a dialog. *)
Variable exn_text : exn -> string.

(** The save command: the dialogs it shows and the database it leaves
    (the widgets that [clear_form] resets are not part of the state). *)
Definition save_inspection (f : form) (d : db) : list dialog * db :=
  let failed e d' := ([showerror "Erro" ("Erro ao salvar inspeção: " +:+ exn_text e)], d') in
  match validate_form f with
  | Raise e => failed e d
  | Ok (false, shown) => (shown, d)
  | Ok (true, shown) =>
      let inspection_data := collect_form_data f in
      match Database.save_inspection now inspection_data d with
      | (Raise e, d') => failed e d'
      | (Ok inspection_id, d') =>
          let photo := match current_photo_path f with
                       | Some p => VStr p
                       | None => VNone
                       end in
          match generate_inspection_report inspection_data photo with
          | Raise e => failed e d'
          | Ok pdf_path =>
              (shown ++
               [showinfo "Sucesso"
                  ("Inspeção salva com ID: " +:+ pretty inspection_id +:+ "
PDF gerado: " +:+ ReportGenerator.basename pdf_path)],
               d')
          end
      end
  end.

End App.

Section StatusLabel.

Variable today : date.
Variable exn_text : exn -> string.

(** [self.colors] *)
Definition colors (key : string) : string :=
  if String.eqb key "primary" then "#2c3e50"
  else if String.eqb key "secondary" then "#3498db"
  else if String.eqb key "success" then "#27ae60"
  else if String.eqb key "warning" then "#f39c12"
  else if String.eqb key "danger" then "#e74c3c"
  else if String.eqb key "light" then "#ecf0f1"
  else "#2c3e50".

(** [update_inspection_status]: the text and the colour that it gives to
    the status label. *)
Definition update_inspection_status (ultima_data : string) : string * string :=
  match DateValidator.get_inspection_status today ultima_data 12 with
  | Ok status_info =>
      let status_text :=
        strip ("
📅 Última Inspeção: " +:+ StatusInfo.last_inspection_formatted status_info +:+ "
⏰ Próxima Inspeção: "
               +:+ default "N/A" (StatusInfo.next_inspection_formatted status_info) +:+ "
📊 Dias até Vencimento: " +:+ pretty (StatusInfo.days_until_due status_info) +:+ "
🔔 Status: " +:+ StatusInfo.message status_info +:+ "
            ") in
      let status := StatusInfo.status status_info in
      let color :=
        if String.eqb status "overdue" then colors "danger"
        else if String.eqb status "warning" then colors "warning"
        else if String.eqb status "attention" then colors "warning"
        else colors "success" in
      (status_text, color)
  | Raise e => ("Erro ao calcular status: " +:+ exn_text e, colors "danger")
  end.

End StatusLabel.

End InspectionFormApp.

(** ** [photo_handler.py]: the paths and the deletion of a photo *)

Module PhotoHandler.

Import Database.

Local Open Scope string_scope.
Local Open Scope list_scope.
Local Open Scope Z_scope.

(** [s.rfind(c)], continued from position [i] with the last position found. *)
Fixpoint rfind_from (c : ascii) (s : string) (i last : Z) : Z :=
  match s with
  | EmptyString => last
  | String x r => rfind_from c r (i + 1) (if Ascii.eqb x c then i else last)
  end.

Definition rfind (c : ascii) (s : string) : Z := rfind_from c s 0 (-1).

(** [s[:n]] and [s[n:]] for [0 <= n]. *)
Definition prefix (s : string) (n : Z) : string :=
  String.substring 0 (Z.to_nat n) s.

Definition suffix (s : string) (n : Z) : string :=
  String.substring (Z.to_nat n) (String.length s - Z.to_nat n) s.

Fixpoint all_slashes (s : string) : bool :=
  match s with
  | EmptyString => true
  | String c r => Ascii.eqb c "/"%char && all_slashes r
  end.

(** [s.rstrip('/')] *)
Fixpoint rstrip_slashes (s : string) : string :=
  match s with
  | EmptyString => EmptyString
  | String c r =>
      match rstrip_slashes r with
      | EmptyString => if Ascii.eqb c "/"%char then EmptyString else String c EmptyString
      | r' => String c r'
      end
  end.

(** [os.path.dirname], with [/] as the separator. *)
Definition dirname (p : string) : string :=
  let i := rfind "/"%char p + 1 in
  let head := prefix p i in
  if negb (String.eqb head "") && negb (all_slashes head)
  then rstrip_slashes head else head.

(** Whether a character other than [.] stands in [p] from position [lo] on
    and before position [hi]. *)
Fixpoint has_non_dot (p : string) (i lo hi : Z) : bool :=
  match p with
  | EmptyString => false
  | String c r =>
      ((lo <=? i) && (i <? hi) && negb (Ascii.eqb c "."%char))
      || has_non_dot r (i + 1) lo hi
  end.

(** [os.path.splitext] *)
Definition splitext (p : string) : string * string :=
  let sepIndex := rfind "/"%char p in
  let dotIndex := rfind "."%char p in
  if (dotIndex >? sepIndex) && has_non_dot p 0 (sepIndex + 1) dotIndex
  then (prefix p dotIndex, suffix p dotIndex)
  else (p, "").

Definition _get_thumbnail_path (photo_path : string) : string :=
  let dir_path := dirname photo_path in
  let filename := ReportGenerator.basename photo_path in
  let '(name, ext) := splitext filename in
  let thumbnail_name := name +:+ "_thumb" +:+ ext in
  ReportGenerator.path_join dir_path thumbnail_name.

(** [delete_photo]: any exception is printed and gives [False]. *)
Definition delete_photo (f : filesystem) (photo_path : string) : bool * filesystem :=
  if negb (path_exists f (VStr photo_path)) then (false, f)
  else
    match os_remove f (VStr photo_path) with
    | Raise _ => (false, f)
    | Ok f1 =>
        let thumbnail_path := _get_thumbnail_path photo_path in
        if path_exists f1 (VStr thumbnail_path) then
          match os_remove f1 (VStr thumbnail_path) with
          | Ok f2 => (true, f2)
          | Raise _ => (false, f1)
          end
        else (true, f1)
    end.

End PhotoHandler.

(** ** Sample states and inputs *)

Module Examples.

Import Database.
Local Open Scope string_scope.
Local Open Scope list_scope.
Local Open Scope Z_scope.

Definition empty_db : db := mk_db [] [] 0 0.

Definition empty_fs : filesystem := mk_fs ∅ ∅.

(** A field set as the form submits it. *)
Definition form_data : gmap string value :=
  list_to_map
    [("plataforma", VStr "P-1"); ("modulo", VStr "M01"); ("setor", VStr "S01");
     ("tipoEquipamento", VStr "Tanque"); ("tag", VStr "TQ-001");
     ("defeito", VStr "Trinca"); ("causa", VStr "Impacto");
     ("categoriaRTI", VStr "II"); ("recomendacao", VStr "Pintura");
     ("ultima", VStr "2024-03-15"); ("data", VStr "2025-01-10");
     ("tipoDano", VStr "Localizado"); ("observacoes", VStr "");
     ("foto_path", VStr "")].

(** The database after [form_data] has been saved once. *)
Definition stored_db : db :=
  snd (save_inspection "2025-01-10T09:00:00" form_data empty_db).

(** A record with a photo. *)
Definition photo_row : inspecao :=
  mk_inspecao 1 (VStr "P-1") (VStr "M01") (VStr "S01") (VStr "Tanque")
    (VStr "TQ-001") (VStr "Trinca") (VStr "Impacto") (VStr "II") (VStr "Pintura")
    (VStr "2024-03-15") (VStr "2025-01-10") (VStr "Localizado") (VStr "")
    (VStr "fotos_inspecoes/a.jpg") (VStr "2025-01-10T09:00:00")
    (VStr "2025-01-10T09:00:00").

Definition photo_db : db := mk_db [photo_row] [] 1 0.

(** The photo is on disk and [os.remove] fails on it. *)
Definition locked_fs : filesystem :=
  mk_fs {["fotos_inspecoes/a.jpg"]} {["fotos_inspecoes/a.jpg"]}.

(** The record as [get_all_inspections] hands it to the batch; its photo
    is not on the disk of [empty_fs]. *)
Definition photo_record : gmap string value := list_to_map (dict_of_row photo_row).

(** A PDF library whose [build] succeeds on every story. *)
Definition build_ok (path : string) (story : list ReportGenerator.flowable)
    : result unit := Ok tt.

Definition batch_of_missing_photo : list string * list ReportGenerator.log_line :=
  ReportGenerator.generate_batch_reports "relatorios" (_ymd2ord 2025 1 10)
    "10/01/2025 às 09:00:00" empty_fs (fun _ => None) build_ok
    (fun _ => "20250110_090000") [photo_record].

End Examples.

(** ** Auxiliary definitions of the proofs *)

Module Aux.

Local Open Scope string_scope.
Local Open Scope Z_scope.

(** The month and the day that [_ord2ymd] computes from the day [n] of a
    year (counted from 0). *)
Definition month_day (leapyear : bool) (n : Z) : Z * Z :=
  let month := Z.shiftr (n + 50) 5 in
  let preceding :=
    tbl _DAYS_BEFORE_MONTH month + (if (month >? 2) && leapyear then 1 else 0) in
  if preceding >? n then
    let month := month - 1 in
    let preceding :=
      preceding
      - (tbl _DAYS_IN_MONTH month + (if (month =? 2) && leapyear then 1 else 0)) in
    (month, n - preceding + 1)
  else (month, n - preceding + 1).

Definition month_day_ok (leapyear : bool) (n : Z) : bool :=
  let '(m, d) := month_day leapyear n in
  (1 <=? m) && (m <=? 12) && (1 <=? d)
  && (d <=? (if (m =? 2) && leapyear then 29 else tbl _DAYS_IN_MONTH m))
  && (tbl _DAYS_BEFORE_MONTH m + (if (m >? 2) && leapyear then 1 else 0) + d =? n + 1).

Definition md_roundtrip_ok (m d : Z) : bool :=
  match re_md (pad2 m +:+ "-" +:+ pad2 d) with
  | Some (m', d', r) => (m' =? m) && (d' =? d) && String.eqb r ""
  | None => false
  end.

(** No [-] in a field. *)
Fixpoint no_dash (f : string) : bool :=
  match f with
  | EmptyString => true
  | String c r => negb (Ascii.eqb c "-"%char) && no_dash r
  end.

End Aux.

(** ** Definitions that the further properties are stated with *)

Module Derived.

Import Database.
Local Open Scope string_scope.
Local Open Scope list_scope.
Local Open Scope Z_scope.

(** The day that a leap year has more. *)
Definition leap_day (year : Z) : Z := if _is_leap year then 1 else 0.

(** The days from [first] on, [n] of them. *)
Definition days_from (first : date) (n : nat) : list date :=
  map (fun k => first + Z.of_nat k) (seq 0 n).

(** Monday to Friday. *)
Definition is_working_day (d : date) : bool := weekday d <? 5.

Definition count_working_days (first : date) (n : nat) : Z :=
  Z.of_nat (length (List.filter is_working_day (days_from first n))).

(** The keys of the submitted dictionary that go to the NOT NULL columns. *)
Definition required_keys : list string :=
  ["plataforma"; "modulo"; "setor"; "tipoEquipamento"; "tag"; "defeito"; "causa";
   "categoriaRTI"; "recomendacao"; "ultima"; "data"; "tipoDano"].

(** No required key has [None]. *)
Definition required_present (data : gmap string value) : bool :=
  forallb (fun key => negb (is_null (get data key))) required_keys.

(** The dictionary can be bound to the statement: the SQLite binding takes
    an [int] of 64 bits and raises [OverflowError] on a greater one. *)
Definition bindable (data : gmap string value) : bool :=
  forallb (fun key => match get data key with
                      | VInt n => (- 2 ^ 63 <=? n) && (n <? 2 ^ 63)
                      | _ => true
                      end)
          (required_keys ++ ["observacoes"; "foto_path"]).

(** A value that a DATE column keeps as it is given.  The affinity of the
    column is NUMERIC: a text that reads as a number is stored as the number.
    A date does not read as a number, nor does the empty text. *)
Definition date_text (v : value) : bool :=
  match v with
  | VStr s => well_formed s || String.eqb s ""
  | _ => false
  end.

(** The table stores the values of the dictionary as they are given: texts
    under the required keys, no [int] under the other two (a TEXT column
    stores an [int] as its text), and under the keys of the two DATE columns
    texts that these keep. *)
Definition stored_as_given (data : gmap string value) : bool :=
  forallb (fun key => match get data key with VStr _ => true | _ => false end)
          required_keys
  && forallb (fun key => match get data key with VInt _ => false | _ => true end)
             ["observacoes"; "foto_path"]
  && date_text (get data "ultima") && date_text (get data "data").

(** The row that [save_inspection] and [update_inspection] write. *)
Definition row_of (inspection_id : Z) (data : gmap string value)
    (created updated : value) : inspecao :=
  mk_inspecao inspection_id
    (get data "plataforma") (get data "modulo") (get data "setor")
    (get data "tipoEquipamento") (get data "tag") (get data "defeito")
    (get data "causa") (get data "categoriaRTI") (get data "recomendacao")
    (get data "ultima") (get data "data") (get data "tipoDano")
    (get data "observacoes") (get data "foto_path") created updated.

(** The columns that [_log_changes] compares. *)
Definition logged_columns : list string :=
  ["plataforma"; "modulo"; "setor"; "tipo_equipamento"; "tag"; "defeito"; "causa";
   "categoria_rti"; "recomendacao"; "ultima_inspecao"; "data_inspecao"; "tipo_dano";
   "observacoes"; "foto_path"].

(** Whether the stored text of a column differs from the text of the value
    that the submitted dictionary has under the name of the column. *)
Definition differs (old_data : list (string * value)) (new_data : gmap string value)
    (field : string) : bool :=
  negb (String.eqb (str (dict_get old_data field (VStr ""))) (str (get new_data field))).

(** What a row of the log records, but its own identifier. *)
Definition log_entry (h : historico) : Z * string * string * string * string :=
  (inspecao_id h, campo h, valor_anterior h, valor_novo h, data_alteracao h).

Definition is_skipped (field : string) : bool :=
  existsb (String.eqb field) ["id"; "created_at"; "updated_at"].

(** [dict(row)] as the dictionary that the report generator reads. *)
Definition record_of_row (r : inspecao) : gmap string value :=
  list_to_map (dict_of_row r).

(** The NOT NULL columns, each with the key of the submitted dictionary that
    goes to it. *)
Definition required_columns : list (string * (inspecao -> value)) :=
  [("plataforma", plataforma); ("modulo", modulo); ("setor", setor);
   ("tipoEquipamento", tipo_equipamento); ("tag", tag); ("defeito", defeito);
   ("causa", causa); ("categoriaRTI", categoria_rti);
   ("recomendacao", recomendacao); ("ultima", ultima_inspecao);
   ("data", data_inspecao); ("tipoDano", tipo_dano)].



(** One operation of the persistence component, at any time and on any
    file system. *)
Inductive db_step : db -> db -> Prop :=
| step_save now data d :
    db_step d (snd (save_inspection now data d))
| step_update now current_timestamp inspection_id data d :
    db_step d (snd (update_inspection now current_timestamp inspection_id data d))
| step_delete inspection_id d f :
    db_step d (fst (snd (delete_inspection inspection_id (d, f))))
| step_clear d f :
    db_step d (fst (snd (clear_all_inspections (d, f)))).

(** Identifiers are unique and not above the counter, and every row of the
    log references a record. *)
Definition consistent (d : db) : Prop :=
  NoDup (map id (inspecoes d))
  /\ (forall r, In r (inspecoes d) -> id r <= seq_inspecoes d)
  /\ (forall h, In h (historico_alteracoes d) ->
        existsb (fun r => id r =? inspecao_id h) (inspecoes d) = true).

End Derived.

(** * Properties *)

(** ** The calendar: ordinals and civil dates *)

Section CalendarFacts.

Import Aux.
Local Open Scope string_scope.
Local Open Scope Z_scope.

Lemma month_day_table leapyear :
  forallb (month_day_ok leapyear) (map Z.of_nat (seq 0 365)) = true.
Proof. destruct leapyear; vm_compute; reflexivity. Qed.

Lemma month_day_spec leapyear n :
  0 <= n < 365 -> month_day_ok leapyear n = true.
Proof.
  intros Hn.
  pose proof (month_day_table leapyear) as H.
  rewrite forallb_forall in H. apply H.
  apply in_map_iff. exists (Z.to_nat n). split; [lia|].
  apply in_seq. lia.
Qed.

Lemma is_leap_decomp a b c e :
  0 <= a -> 0 <= b <= 3 -> 0 <= c <= 24 -> 0 <= e <= 3 ->
  _is_leap (a * 400 + 1 + b * 100 + c * 4 + e)
  = (e =? 3) && (negb (c =? 24) || (b =? 3)).
Proof.
  intros Ha Hb Hc He. unfold _is_leap.
  repeat match goal with
  | |- context [?x =? ?y] => destruct (Z.eqb_spec x y)
  end; simpl; try reflexivity; exfalso; Z.div_mod_to_equations; lia.
Qed.

Lemma days_before_year_decomp a b c e :
  0 <= a -> 0 <= b <= 3 -> 0 <= c <= 24 -> 0 <= e <= 3 ->
  _days_before_year (a * 400 + 1 + b * 100 + c * 4 + e)
  = a * 146097 + b * 36524 + c * 1461 + e * 365.
Proof.
  intros Ha Hb Hc He. unfold _days_before_year. Z.div_mod_to_equations. lia.
Qed.

Lemma ord2ymd_spec n :
  1 <= n ->
  exists y m d,
    _ord2ymd n = (y, m, d) /\ _ymd2ord y m d = n
    /\ 1 <= y /\ 1 <= m <= 12 /\ 1 <= d <= _days_in_month y m.
Proof.
  intros Hn. unfold _ord2ymd, _DI400Y, _DI100Y, _DI4Y.
  set (a := (n - 1) / 146097).
  set (r := (n - 1) mod 146097).
  set (b := r / 36524).
  set (r2 := r mod 36524).
  set (c := r2 / 1461).
  set (r3 := r2 mod 1461).
  set (e := r3 / 365).
  set (r4 := r3 mod 365).
  cbv zeta.
  assert (Ha : 0 <= a /\ n - 1 = 146097 * a + r /\ 0 <= r < 146097)
    by (subst a r; Z.div_mod_to_equations; lia).
  assert (Hb : 0 <= b <= 4 /\ r = 36524 * b + r2 /\ 0 <= r2 < 36524)
    by (subst b r2; Z.div_mod_to_equations; lia).
  assert (Hc : 0 <= c <= 24 /\ r2 = 1461 * c + r3 /\ 0 <= r3 < 1461)
    by (subst c r3; Z.div_mod_to_equations; lia).
  assert (He : 0 <= e <= 4 /\ r3 = 365 * e + r4 /\ 0 <= r4 < 365)
    by (subst e r4; Z.div_mod_to_equations; lia).
  clearbody a r b r2 c r3 e r4.
  destruct ((e =? 4) || (b =? 4)) eqn:Hlast.
  - (* the last day of a leap year *)
    eexists _, _, _. split; [reflexivity|].
    assert (Hy : a * 400 + 1 + b * 100 + c * 4 + e - 1
                 = a * 400 + 1 + (if b =? 4 then 3 else b) * 100
                   + (if b =? 4 then 24 else c) * 4 + 3).
    { apply orb_true_iff in Hlast.
      destruct (Z.eqb_spec b 4); destruct (Z.eqb_spec e 4); lia. }
    rewrite Hy. unfold _ymd2ord, _days_in_month, _days_before_month.
    rewrite is_leap_decomp, days_before_year_decomp
      by (destruct (Z.eqb_spec b 4); lia).
    apply orb_true_iff in Hlast.
    destruct (Z.eqb_spec b 4); destruct (Z.eqb_spec e 4);
      repeat match goal with
      | |- context [?x =? ?y] => destruct (Z.eqb_spec x y)
      end; simpl;
      change (tbl _DAYS_BEFORE_MONTH 12) with 334;
      change (tbl _DAYS_IN_MONTH 12) with 31; lia.
  - apply orb_false_iff in Hlast. destruct Hlast as [He4 Hb4].
    apply Z.eqb_neq in He4, Hb4.
    pose proof (month_day_spec ((e =? 3) && (negb (c =? 24) || (b =? 3))) r4
                  ltac:(lia)) as Hmd.
    unfold month_day_ok, month_day in Hmd.
    set (leap := (e =? 3) && (negb (c =? 24) || (b =? 3))) in *.
    set (month := Z.shiftr (r4 + 50) 5) in *.
    set (prec := tbl _DAYS_BEFORE_MONTH month + (if (month >? 2) && leap then 1 else 0)) in *.
    unfold _ymd2ord, _days_in_month, _days_before_month.
    assert (Hleap : _is_leap (a * 400 + 1 + b * 100 + c * 4 + e) = leap)
      by (apply is_leap_decomp; lia).
    assert (Hdby : _days_before_year (a * 400 + 1 + b * 100 + c * 4 + e)
                   = a * 146097 + b * 36524 + c * 1461 + e * 365)
      by (apply days_before_year_decomp; lia).
    destruct (prec >? r4);
      (eexists _, _, _; split; [reflexivity|]);
      rewrite Hleap, Hdby;
      repeat (apply andb_prop in Hmd; destruct Hmd as [Hmd ?]);
      repeat match goal with
      | H : (_ <=? _) = true |- _ => apply Z.leb_le in H
      | H : (_ =? _) = true |- _ => apply Z.eqb_eq in H
      end; lia.
Qed.


Lemma md_roundtrip_table :
  forallb (fun m => forallb (md_roundtrip_ok (Z.of_nat m)) (map Z.of_nat (seq 1 31)))
          (seq 1 12) = true.
Proof. vm_compute. reflexivity. Qed.

Lemma re_md_pad2 m d :
  1 <= m <= 12 -> 1 <= d <= 31 ->
  re_md (pad2 m +:+ "-" +:+ pad2 d) = Some (m, d, "").
Proof.
  intros Hm Hd.
  pose proof md_roundtrip_table as H.
  rewrite forallb_forall in H.
  specialize (H (Z.to_nat m) ltac:(apply in_seq; lia)).
  rewrite forallb_forall in H.
  specialize (H d ltac:(apply in_map_iff; exists (Z.to_nat d); split;
                         [lia | apply in_seq; lia])).
  rewrite Z2Nat.id in H by lia.
  unfold md_roundtrip_ok in H.
  destruct (re_md _) as [[[m' d'] r]|]; [|discriminate].
  apply andb_prop in H as [H Hr]. apply andb_prop in H as [H1 H2].
  apply Z.eqb_eq in H1, H2. apply String.eqb_eq in Hr. congruence.
Qed.

Lemma digit_digit_char k : 0 <= k <= 9 -> digit (digit_char k) = Some k.
Proof.
  intros Hk.
  assert (k = 0 \/ k = 1 \/ k = 2 \/ k = 3 \/ k = 4 \/ k = 5 \/ k = 6 \/ k = 7
          \/ k = 8 \/ k = 9) as Hc by lia.
  repeat destruct Hc as [-> | Hc]; try subst k; reflexivity.
Qed.

Lemma append_String c s t : String c s +:+ t = String c (s +:+ t).
Proof. reflexivity. Qed.

Lemma append_nil t : "" +:+ t = t.
Proof. reflexivity. Qed.

Lemma re_match_format y m d :
  0 <= y <= 9999 -> 1 <= m <= 12 -> 1 <= d <= 31 ->
  re_match (pad4 y +:+ "-" +:+ pad2 m +:+ "-" +:+ pad2 d) = Some (y, m, d, "").
Proof.
  intros Hy Hm Hd.
  pose proof (re_md_pad2 m d Hm Hd) as Hmd.
  set (tail := pad2 m +:+ "-" +:+ pad2 d) in *.
  unfold re_match, pad4.
  rewrite !append_String, !append_nil. cbn [re_Y].
  rewrite !digit_digit_char by (Z.div_mod_to_equations; lia).
  cbn [mbind option_bind re_dash].
  change (Ascii.eqb "-" "-") with true. cbv iota.
  cbn [mbind option_bind].
  rewrite Hmd. cbn [mbind option_bind].
  do 2 f_equal. f_equal. f_equal. Z.div_mod_to_equations; lia.
Qed.

Lemma year_bound y m d :
  1 <= y -> 1 <= m <= 12 -> 1 <= d -> _ymd2ord y m d <= _MAXORDINAL -> y <= MAXYEAR.
Proof.
  intros Hy Hm Hd. unfold _ymd2ord, _days_before_year, _days_before_month, _MAXORDINAL, MAXYEAR.
  assert (0 <= tbl _DAYS_BEFORE_MONTH m).
  { assert (m = 1 \/ m = 2 \/ m = 3 \/ m = 4 \/ m = 5 \/ m = 6 \/ m = 7 \/ m = 8
            \/ m = 9 \/ m = 10 \/ m = 11 \/ m = 12) as Hc by lia.
    repeat destruct Hc as [-> | Hc]; try subst m; vm_compute; discriminate. }
  destruct (_ && _); Z.div_mod_to_equations; lia.
Qed.

Lemma days_in_month_le y m : _days_in_month y m <= 31.
Proof.
  unfold _days_in_month. destruct (_ && _); [lia|].
  unfold tbl. 
  destruct (Z.to_nat m) as [|[|[|[|[|[|[|[|[|[|[|[|[|[|]]]]]]]]]]]]]]; cbn; try lia.
Qed.

Lemma strptime_strftime_iso n :
  valid_ordinal n = true -> strptime (strftime_iso n) = Ok n.
Proof.
  unfold valid_ordinal. intros Hn. apply andb_prop in Hn as [H1 H2].
  apply Z.leb_le in H1, H2.
  destruct (ord2ymd_spec n H1) as (y & m & d & Ho & Hord & Hy & Hm & Hd).
  unfold strftime_iso, strptime. rewrite Ho.
  pose proof (days_in_month_le y m).
  assert (y <= MAXYEAR) by (apply (year_bound y m d); lia).
  unfold MAXYEAR in *.
  rewrite re_match_format by lia. cbn [String.eqb negb].
  unfold _check_date_fields, MINYEAR, MAXYEAR.
  repeat match goal with
  | |- context [?a <=? ?b] => destruct (Z.leb_spec a b); [|lia]
  end. cbn. congruence.
Qed.

(** Every day of the calendar, written as YYYY-MM-DD, is well formed. *)
Lemma iso_dates_are_well_formed n :
  valid_ordinal n = true -> well_formed (strftime_iso n) = true.
Proof. intros H. unfold well_formed. by rewrite strptime_strftime_iso. Qed.

End CalendarFacts.

(** ** Dates as they are written *)

Section DateTexts.

Import Aux.
Local Open Scope string_scope.
Local Open Scope list_scope.
Local Open Scope Z_scope.

Lemma digit_range c d : digit c = Some d -> 0 <= d <= 9.
Proof.
  unfold digit. destruct (_ && _) eqn:E; [|discriminate].
  apply andb_prop in E as [H1 H2]. apply Z.leb_le in H1, H2. intros [= <-]. lia.
Qed.

Lemma digit_not_dash c d : digit c = Some d -> Ascii.eqb c "-"%char = false.
Proof. destruct (Ascii.eqb_spec c "-"%char) as [-> | ]; [discriminate | done]. Qed.

Lemma digit_not_space c d : digit c = Some d -> Ascii.eqb c " "%char = false.
Proof. destruct (Ascii.eqb_spec c " "%char) as [-> | ]; [discriminate | done]. Qed.

Lemma fields_of_nonempty s : fields_of s <> [].
Proof.
  induction s as [|c r IH]; cbn; [done|].
  destruct (Ascii.eqb c "-"%char); [done|]. by destruct (fields_of r).
Qed.

Lemma fields_of_no_dash f : no_dash f = true -> fields_of f = [f].
Proof.
  induction f as [|c r IH]; cbn; [done|].
  destruct (Ascii.eqb c "-"%char); cbn; [discriminate|]. intros H. by rewrite IH.
Qed.

Lemma fields_of_app f r :
  no_dash f = true -> fields_of (f +:+ String "-"%char r) = f :: fields_of r.
Proof.
  induction f as [|c f IH]; intros H.
  - by rewrite append_nil.
  - rewrite append_String. cbn [fields_of no_dash] in *.
    destruct (Ascii.eqb c "-"%char); cbn in H; [discriminate|]. by rewrite IH.
Qed.

Lemma fields_of_inv s f fs :
  fields_of s = f :: fs ->
  no_dash f = true
  /\ ((fs = [] /\ s = f) \/ (exists r, s = f +:+ String "-"%char r /\ fields_of r = fs)).
Proof.
  revert f fs. induction s as [|c s IH]; intros f fs; cbn [fields_of].
  - intros [= <- <-]. split; [done | by left].
  - destruct (Ascii.eqb_spec c "-"%char) as [-> | Hc].
    + intros [= <- <-]. split; [done|]. right. exists s. by rewrite append_nil.
    + destruct (fields_of s) as [|g gs] eqn:E; [by destruct (fields_of_nonempty s)|].
      intros [= <- <-]. destruct (IH g gs eq_refl) as [Hg Hs].
      split.
      * cbn. rewrite Hg, andb_true_r. by destruct (Ascii.eqb_spec c "-"%char).
      * destruct Hs as [[-> ->] | (r & -> & Hr)]; [by left|].
        right. exists r. by rewrite append_String.
Qed.

Lemma re_Y_inv s y r :
  re_Y s = Some (y, r) ->
  exists yf, s = yf +:+ r /\ year_field yf = Some y /\ no_dash yf = true.
Proof.
  unfold re_Y. destruct s as [|c1 [|c2 [|c3 [|c4 r']]]]; try discriminate.
  destruct (digit c1) as [d1|] eqn:D1; [|discriminate].
  destruct (digit c2) as [d2|] eqn:D2; [|discriminate].
  destruct (digit c3) as [d3|] eqn:D3; [|discriminate].
  destruct (digit c4) as [d4|] eqn:D4; [|discriminate].
  cbn. intros [= <- <-].
  exists (String c1 (String c2 (String c3 (String c4 "")))).
  split; [by rewrite !append_String, append_nil|]. split.
  - cbn. by rewrite D1, D2, D3, D4.
  - cbn. by rewrite (digit_not_dash _ _ D1), (digit_not_dash _ _ D2),
      (digit_not_dash _ _ D3), (digit_not_dash _ _ D4).
Qed.

Lemma re_dash_inv s r : re_dash s = Some r -> s = String "-"%char r.
Proof.
  destruct s as [|c s]; [discriminate|]. cbn.
  destruct (Ascii.eqb_spec c "-"%char) as [-> | ]; [by intros [= ->] | discriminate].
Qed.

Ltac digit_cases d H :=
  let E := fresh in
  assert (E : d = 0 \/ d = 1 \/ d = 2 \/ d = 3 \/ d = 4 \/ d = 5 \/ d = 6 \/ d = 7
              \/ d = 8 \/ d = 9) by (pose proof (digit_range _ _ H); lia);
  repeat destruct E as [E | E]; subst d.

Lemma re_d_inv r d :
  re_d r = Some (d, "") -> day_field r = Some d /\ no_dash r = true.
Proof.
  unfold re_d, day_field. destruct r as [|c1 [|c2 [|c3 r3]]]; [discriminate| | |].
  - destruct (digit c1) as [d1|] eqn:D1; [|discriminate].
    cbn. destruct (in_range 1 9 d1); [|discriminate]. intros [= <-].
    split; [done|]. cbn. by rewrite (digit_not_dash _ _ D1).
  - destruct (digit c1) as [d1|] eqn:D1.
    + rewrite (digit_not_space _ _ D1).
      destruct (digit c2) as [d2|] eqn:D2.
      * cbn. rewrite (digit_not_dash _ _ D1), (digit_not_dash _ _ D2). cbn.
        digit_cases d1 D1; digit_cases d2 D2; cbn; intros [= <-]; done.
      * cbn. destruct (in_range 1 9 d1); discriminate.
    + destruct (digit c2) as [d2|] eqn:D2; [|discriminate].
      destruct (Ascii.eqb_spec c1 " "%char) as [-> | ]; cbn; [|discriminate].
      destruct (in_range 1 9 d2); [|discriminate]. intros [= <-].
      split; [done|]. by rewrite (digit_not_dash _ _ D2).
  - destruct (digit c1) as [d1|], (digit c2) as [d2|]; cbn;
      repeat match goal with
      | |- context [if ?b then _ else _] => destruct b
      end; discriminate.
Qed.

Lemma re_tail_inv (m : Z) r0 m' d' :
  (r ← re_dash r0; '(d, r) ← re_d r; Some (m, d, r)) = Some (m', d', "") ->
  m' = m /\ exists df, r0 = String "-"%char df /\ day_field df = Some d' /\ no_dash df = true.
Proof.
  destruct (re_dash r0) as [r|] eqn:E; [|discriminate]. cbn.
  destruct (re_d r) as [[d r']|] eqn:E'; [|discriminate]. cbn.
  intros [= <- <- ->]. split; [done|]. exists r.
  split; [by apply re_dash_inv|]. by apply re_d_inv.
Qed.

Lemma re_md_inv s m d :
  re_md s = Some (m, d, "") ->
  exists mf df,
    s = mf +:+ String "-"%char df
    /\ month_field mf = Some m /\ no_dash mf = true
    /\ day_field df = Some d /\ no_dash df = true.
Proof.
  unfold re_md, re_m. destruct s as [|c1 r1]; [discriminate|].
  destruct (digit c1) as [d1|] eqn:D1; [|discriminate].
  destruct r1 as [|c2 r2].
  - cbn [app]. destruct (in_range 1 9 d1); discriminate.
  - assert (Hone : first_some
                     (fun '(m0, r) => r ← re_dash r; '(d0, r) ← re_d r; Some (m0, d0, r))
                     (if in_range 1 9 d1 then [(d1, String c2 r2)] else [])
                   = Some (m, d, "") ->
                   exists mf df,
                     String c1 (String c2 r2) = mf +:+ String "-"%char df
                     /\ month_field mf = Some m /\ no_dash mf = true
                     /\ day_field df = Some d /\ no_dash df = true).
    { destruct (in_range 1 9 d1) eqn:R; [|discriminate]. cbn [first_some].
      destruct (_ ≫= _) as [[[m0 d0] r0]|] eqn:E; [|discriminate].
      intros [= -> -> ->]. apply re_tail_inv in E as (-> & df & [= -> ->] & Hd & Hn).
      exists (String c1 ""), df. rewrite append_String, append_nil.
      split; [done|]. split; [unfold month_field; rewrite D1; cbn -[in_range]; by rewrite R|].
      split; [cbn; by rewrite (digit_not_dash _ _ D1)|]. done. }
    destruct (digit c2) as [d2|] eqn:D2; [|exact Hone].
    destruct (_ || _) eqn:C; [|exact Hone].
    cbn [app first_some].
    destruct (_ ≫= _) as [[[m0 d0] r0]|] eqn:E.
    + intros [= -> -> ->]. apply re_tail_inv in E as (-> & df & -> & Hd & Hn).
      exists (String c1 (String c2 "")), df. rewrite !append_String, append_nil.
      split; [done|]. split.
      * cbn. rewrite D1, D2. cbn.
        digit_cases d1 D1; digit_cases d2 D2; cbn in C |- *; done.
      * split; [cbn; by rewrite (digit_not_dash _ _ D1), (digit_not_dash _ _ D2)|]. done.
    + destruct (in_range 1 9 d1); [|discriminate]. cbn [first_some re_dash].
      rewrite (digit_not_dash _ _ D2). discriminate.
Qed.

Lemma re_match_date_fields s y m d :
  re_match s = Some (y, m, d, "") -> date_fields s = Some (y, m, d).
Proof.
  unfold re_match.
  destruct (re_Y s) as [[y0 r0]|] eqn:EY; [|discriminate]. cbn.
  destruct (re_dash r0) as [r1|] eqn:ED; [|discriminate]. cbn.
  destruct (re_md r1) as [[[m0 d0] r2]|] eqn:EM; [|discriminate]. cbn.
  intros [= -> -> -> ->].
  apply re_Y_inv in EY as (yf & -> & Hy & Hny).
  apply re_dash_inv in ED as ->.
  apply re_md_inv in EM as (mf & df & -> & Hm & Hnm & Hd & Hnd).
  unfold date_fields.
  rewrite (fields_of_app _ _ Hny), (fields_of_app _ _ Hnm), (fields_of_no_dash _ Hnd).
  by rewrite Hy, Hm, Hd.
Qed.

Lemma strptime_written s dt : strptime s = Ok dt -> written_as_date s = true.
Proof.
  unfold strptime, written_as_date.
  destruct (re_match s) as [[[[y m] d] rest]|] eqn:E; [|discriminate].
  destruct (String.eqb_spec rest "") as [-> | ]; [|discriminate]. cbn [negb].
  destruct (_check_date_fields y m d) eqn:Hc; [|discriminate]. intros _.
  by rewrite (re_match_date_fields _ _ _ _ E).
Qed.

Lemma re_Y_fwd yf y r : year_field yf = Some y -> re_Y (yf +:+ r) = Some (y, r).
Proof.
  unfold year_field, re_Y.
  destruct yf as [|c1 [|c2 [|c3 [|c4 [|c5 r']]]]]; try discriminate.
  rewrite !append_String, append_nil.
  destruct (digit c1) as [d1|]; [|discriminate].
  destruct (digit c2) as [d2|]; [|discriminate].
  destruct (digit c3) as [d3|]; [|discriminate].
  destruct (digit c4) as [d4|]; [|discriminate].
  cbn. by intros [= <-].
Qed.

Lemma re_d_fwd df d : day_field df = Some d -> re_d df = Some (d, "").
Proof.
  unfold day_field, re_d. destruct df as [|c1 [|c2 [|c3 r3]]]; try discriminate.
  - destruct (digit c1) as [d1|]; [|discriminate]. cbn.
    destruct (in_range 1 9 d1); [|discriminate]. by intros [= <-].
  - destruct (Ascii.eqb_spec c1 " "%char) as [-> | Hc].
    + change (digit " "%char) with (@None Z).
      destruct (digit c2) as [d2|]; [|discriminate]. cbn.
      destruct (in_range 1 9 d2); [|discriminate]. by intros [= <-].
    + destruct (digit c1) as [d1|] eqn:D1; [|discriminate].
      destruct (digit c2) as [d2|] eqn:D2; [|discriminate]. cbn.
      digit_cases d1 D1; digit_cases d2 D2; cbn;
        first [discriminate | by intros [= <-]].
Qed.

Lemma re_md_fwd mf df m d :
  month_field mf = Some m -> day_field df = Some d ->
  re_md (mf +:+ String "-"%char df) = Some (m, d, "").
Proof.
  intros Hm Hd. apply re_d_fwd in Hd.
  unfold month_field in Hm. unfold re_md, re_m.
  destruct mf as [|c1 [|c2 [|c3 r3]]]; try discriminate.
  - rewrite append_String, append_nil.
    destruct (digit c1) as [d1|]; [|discriminate]. cbn in Hm.
    change (digit "-"%char) with (@None Z). cbn [app].
    destruct (in_range 1 9 d1); [|discriminate]. injection Hm as <-.
    cbn [first_some re_dash]. change (Ascii.eqb "-" "-") with true.
    cbn [mbind option_bind]. by rewrite Hd.
  - rewrite !append_String, append_nil.
    destruct (digit c1) as [d1|] eqn:D1; [|discriminate].
    destruct (digit c2) as [d2|] eqn:D2; [|discriminate]. cbn in Hm.
    assert (C : ((d1 =? 1) && in_range 0 2 d2) || ((d1 =? 0) && in_range 1 9 d2) = true
                /\ m = 10 * d1 + d2).
    { digit_cases d1 D1; digit_cases d2 D2; cbn in Hm |- *;
        first [discriminate | by injection Hm as <-]. }
    destruct C as [-> ->]. cbn [app first_some re_dash].
    change (Ascii.eqb "-" "-") with true. cbn [mbind option_bind]. by rewrite Hd.
Qed.

Lemma date_fields_re_match s y m d :
  date_fields s = Some (y, m, d) -> re_match s = Some (y, m, d, "").
Proof.
  unfold date_fields.
  destruct (fields_of s) as [|yf [|mf [|df [|g gs]]]] eqn:E; try discriminate.
  apply fields_of_inv in E as [_ [[? _] | (r1 & -> & E)]]; [discriminate|].
  apply fields_of_inv in E as [_ [[? _] | (r2 & -> & E)]]; [discriminate|].
  apply fields_of_inv in E as [_ [[_ ->] | (r3 & -> & E)]];
    [|by destruct (fields_of_nonempty r3)].
  destruct (year_field yf) as [y0|] eqn:Hy; [|discriminate]. cbn.
  destruct (month_field mf) as [m0|] eqn:Hm; [|discriminate]. cbn.
  destruct (day_field df) as [d0|] eqn:Hd; [|discriminate]. cbn.
  intros [= <- <- <-]. unfold re_match.
  rewrite (re_Y_fwd _ _ _ Hy). cbn [mbind option_bind re_dash].
  change (Ascii.eqb "-" "-") with true. cbn [mbind option_bind].
  by rewrite (re_md_fwd _ _ _ _ Hm Hd).
Qed.

Lemma written_strptime s :
  written_as_date s = true ->
  exists y m d, date_fields s = Some (y, m, d) /\ strptime s = Ok (_ymd2ord y m d).
Proof.
  unfold written_as_date, strptime.
  destruct (date_fields s) as [[[y m] d]|] eqn:E; [|discriminate]. intros Hc.
  exists y, m, d. split; [done|].
  by rewrite (date_fields_re_match _ _ _ _ E), Hc.
Qed.

Lemma well_formed_written s : well_formed s = written_as_date s.
Proof.
  unfold well_formed. destruct (written_as_date s) eqn:W.
  - by destruct (written_strptime _ W) as (y & m & d & _ & ->).
  - destruct (strptime s) as [dt|e] eqn:E; [|done].
    apply strptime_written in E. congruence.
Qed.

(** The texts that [strptime] takes as dates are the texts that are written
    as dates. *)
Lemma written_dates_are_parsed s :
  written_as_date s = true <-> exists dt, strptime s = Ok dt.
Proof.
  split.
  - intros W. destruct (written_strptime _ W) as (y & m & d & _ & H). eauto.
  - intros [dt H]. by apply strptime_written in H.
Qed.

End DateTexts.

(** ** [date_validator.py] *)

Section DateValidatorFacts.

Import DateValidator.
Local Open Scope string_scope.
Local Open Scope Z_scope.

Variable today : date.

(** Evaluation of the month tables at a month that is a numeral. *)
Ltac calc_tables :=
  repeat match goal with
  | |- context [tbl ?t ?k] =>
      let v := eval vm_compute in (tbl t k) in change (tbl t k) with v
  | H : context [tbl ?t ?k] |- _ =>
      let v := eval vm_compute in (tbl t k) in change (tbl t k) with v in H
  end;
  cbv [andb Z.eqb Z.gtb Z.compare Pos.compare Pos.compare_cont Pos.eqb] in *.

Lemma strptime_cases s : (exists d, strptime s = Ok d) \/ strptime s = Raise ValueError.
Proof.
  unfold strptime.
  destruct (re_match s) as [[[[y m] d] rest]|]; [|by right].
  destruct (negb _); [by right|].
  destruct (_check_date_fields y m d); [left; eauto | by right].
Qed.

Lemma not_well_formed s : well_formed s = false -> strptime s = Raise ValueError.
Proof.
  unfold well_formed. destruct (strptime_cases s) as [[d ->] | ->]; [discriminate | done].
Qed.

Lemma strptime_nonempty s d : strptime s = Ok d -> String.eqb s "" = false.
Proof. destruct s; [discriminate | reflexivity]. Qed.

(** A parsed date is a day of the calendar. *)
Lemma strptime_valid_ordinal s d : strptime s = Ok d -> valid_ordinal d = true.
Proof.
  unfold strptime.
  destruct (re_match s) as [[[[y m] dd] rest]|]; [|discriminate].
  destruct (negb _); [discriminate|].
  destruct (_check_date_fields y m dd) eqn:Hc; [|discriminate].
  intros [= <-]. unfold _check_date_fields, MINYEAR, MAXYEAR in Hc.
  repeat (apply andb_prop in Hc; destruct Hc as [Hc ?]).
  repeat match goal with
  | H : (_ <=? _) = true |- _ => apply Z.leb_le in H
  end.
  unfold valid_ordinal, _MAXORDINAL, _ymd2ord, _days_before_year, _days_before_month.
  unfold _days_in_month in *.
  assert (m = 1 \/ m = 2 \/ m = 3 \/ m = 4 \/ m = 5 \/ m = 6 \/ m = 7 \/ m = 8
          \/ m = 9 \/ m = 10 \/ m = 11 \/ m = 12) as Hm by lia.
  assert (Hl : y = 9999 -> _is_leap y = false) by (by intros ->).
  apply andb_true_intro.
  destruct (_is_leap y);
    repeat destruct Hm as [-> | Hm]; try subst m; calc_tables;
    split; apply Z.leb_le; Z.div_mod_to_equations; try lia;
    assert (y <> 9999) by (intros E; by specialize (Hl E)); lia.
Qed.

(** The two steps of the due date that the operations compute. *)
Lemma timedelta_ok k : Z.abs k <= 999999999 -> timedelta k = Ok k.
Proof. intros H. unfold timedelta. by destruct (Z.leb_spec (Z.abs k) 999999999); [|lia]. Qed.

Lemma date_add_ok d k : valid_ordinal (d + k) = true -> date_add d k = Ok (d + k).
Proof. intros H. unfold date_add. by rewrite H. Qed.

Lemma timedelta_cases k : timedelta k = Ok k \/ timedelta k = Raise OverflowError.
Proof. unfold timedelta. destruct (_ <=? _); auto. Qed.

Lemma date_add_cases d k : date_add d k = Ok (d + k) \/ date_add d k = Raise OverflowError.
Proof. unfold date_add. destruct (valid_ordinal _); auto. Qed.

(** Opening of a body that starts with the parse of a well-formed date. *)
Ltac open_body Hs Hm Hv :=
  rewrite ?(strptime_nonempty _ _ Hs), ?Hs; cbn [mbind result_bind Py.bind];
  rewrite (timedelta_ok _ Hm); cbn [mbind result_bind Py.bind];
  rewrite (date_add_ok _ _ Hv); cbn [mbind result_bind Py.bind Py.except_ValueError].

(** C3. The status of [get_inspection_status] follows the days until the
    due date [d]: negative is overdue, 0 to 30 is warning, 31 to 90 is
    attention, more than 90 is ok (so -1 is overdue, 0 and 30 are warning,
    31 and 90 are attention, 91 is ok); an empty date gives unknown. *)
Theorem status_classification s months last :
  strptime s = Ok last ->
  Z.abs (months * 30) <= 999999999 ->
  valid_ordinal (last + months * 30) = true ->
  let d := last + months * 30 - today in
  (exists info,
      get_inspection_status today s months = Ok info
      /\ StatusInfo.days_until_due info = d
      /\ (d < 0 -> StatusInfo.status info = "overdue")
      /\ (0 <= d <= 30 -> StatusInfo.status info = "warning")
      /\ (31 <= d <= 90 -> StatusInfo.status info = "attention")
      /\ (90 < d -> StatusInfo.status info = "ok"))
  /\ (exists info,
         get_inspection_status today "" months = Ok info
         /\ StatusInfo.status info = "unknown").
Proof.
  intros Hs Hm Hv d. split; [|eexists; split; reflexivity].
  unfold get_inspection_status. open_body Hs Hm Hv.
  fold d.
  destruct (Z.ltb_spec d 0); [|destruct (Z.leb_spec d 30); [|destruct (Z.leb_spec d 90)]];
    (eexists; split; [reflexivity|]); cbn;
    repeat split; try reflexivity; intros; lia.
Qed.

(** C4. For a well-formed date, [is_overdue] returns true exactly when
    [get_days_until_due] returns a negative number; when the due date is a
    day of the calendar, both return, with the values of the same due date. *)
Theorem overdue_iff_negative_days s months last :
  strptime s = Ok last ->
  (is_overdue today s months = Ok true
   <-> exists d, get_days_until_due today s months = Ok d /\ d < 0)
  /\ (Z.abs (months * 30) <= 999999999 ->
      valid_ordinal (last + months * 30) = true ->
      is_overdue today s months = Ok (today >? last + months * 30)
      /\ get_days_until_due today s months = Ok (last + months * 30 - today)).
Proof.
  intros Hs. unfold is_overdue, get_days_until_due.
  rewrite (strptime_nonempty _ _ Hs), Hs. cbn [mbind result_bind Py.bind].
  destruct (timedelta_cases (months * 30)) as [Ht | Ht].
  - rewrite Ht. cbn [mbind result_bind Py.bind].
    destruct (date_add_cases last (months * 30)) as [Hd | Hd]; rewrite Hd; cbn.
    + split; [|done]. split.
      * intros [= H]. eexists; split; [reflexivity|]. lia.
      * intros (d & [= <-] & ?). f_equal. lia.
    + split; [split; [discriminate | intros (d & ? & _); discriminate]|].
      intros _ Hv. rewrite (date_add_ok _ _ Hv) in Hd. discriminate.
  - rewrite Ht. cbn. split; [split; [discriminate | intros (d & ? & _); discriminate]|].
    intros Hm _. rewrite (timedelta_ok _ Hm) in Ht. discriminate.
Qed.

(** C5. [calculate_next_inspection_date] returns the date that lies exactly
    [validity_months * 30] days after the last inspection (months of 30
    days): for a next date from the year 1000 on, the text it returns is
    that day as YYYY-MM-DD and parses back to it.  For 2024-03-15 and 12
    months it is 2025-03-10. *)
Theorem next_inspection_date_30_day_months s months last :
  strptime s = Ok last ->
  Z.abs (months * 30) <= 999999999 ->
  valid_ordinal (last + months * 30) = true ->
  year_has_four_digits (last + months * 30) = true ->
  (exists next,
      calculate_next_inspection_date s months = Ok next
      /\ next = strftime_iso (last + months * 30)
      /\ strptime next = Ok (last + months * 30))
  /\ calculate_next_inspection_date "2024-03-15" 12 = Ok "2025-03-10".
Proof.
  intros Hs Hm Hv _. split; [|reflexivity].
  unfold calculate_next_inspection_date. open_body Hs Hm Hv.
  eexists. split; [reflexivity|]. split; [reflexivity|].
  by apply strptime_strftime_iso.
Qed.

(** The failure values of the operations, on a text that [strptime]
    refuses. *)
Lemma refused_text_failure_values s other months :
  well_formed s = false ->
  (exists msg, validate_inspection_date today s = Ok (false, msg))
  /\ (exists msg, validate_last_inspection_date today s = Ok (false, msg))
  /\ (exists msg, validate_date_range s other = Ok (false, msg))
  /\ (exists msg, validate_date_range other s = Ok (false, msg))
  /\ calculate_next_inspection_date s months = Ok ""
  /\ is_overdue today s months = Ok false
  /\ get_days_until_due today s months = Ok 0
  /\ (exists info,
         get_inspection_status today s months = Ok info
         /\ (StatusInfo.status info = "unknown" \/ StatusInfo.status info = "error")
         /\ StatusInfo.is_overdue info = false
         /\ StatusInfo.days_until_due info = 0).
Proof.
  intros Hw. apply not_well_formed in Hw.
  unfold validate_inspection_date, validate_last_inspection_date, validate_date_range,
    calculate_next_inspection_date, is_overdue, get_days_until_due,
    get_inspection_status.
  rewrite Hw. cbn [mbind result_bind Py.bind Py.except_ValueError].
  repeat split.
  - destruct (String.eqb s ""); eexists; reflexivity.
  - destruct (String.eqb s ""); eexists; reflexivity.
  - destruct (String.eqb s "" || String.eqb other ""); eexists; reflexivity.
  - destruct (String.eqb other "" || String.eqb s ""); [eexists; reflexivity|].
    destruct (strptime_cases other) as [[d ->] | ->]; eexists; reflexivity.
  - by destruct (String.eqb s "").
  - by destruct (String.eqb s "").
  - destruct (String.eqb s ""); eexists; (split; [reflexivity|]); cbn; auto.
Qed.

(** C9, as the code has it. The texts that are taken as dates are those
    written as three fields between [-]: a year of four digits, a month of
    one or two digits and a day of one or two digits, or of a blank and a
    digit, that name a day of the calendar.  On every other text of ASCII
    characters each operation that parses dates returns its failure value
    and raises nothing: the validations a false flag with a message, the
    next date the empty text, the overdue check false, the days 0, the status
    an unknown or error record. *)
Theorem malformed_date_is_typed_failure s other months :
  is_ascii s = true ->
  written_as_date s = false ->
  (exists msg, validate_inspection_date today s = Ok (false, msg))
  /\ (exists msg, validate_last_inspection_date today s = Ok (false, msg))
  /\ (exists msg, validate_date_range s other = Ok (false, msg))
  /\ (exists msg, validate_date_range other s = Ok (false, msg))
  /\ calculate_next_inspection_date s months = Ok ""
  /\ is_overdue today s months = Ok false
  /\ get_days_until_due today s months = Ok 0
  /\ (exists info,
         get_inspection_status today s months = Ok info
         /\ (StatusInfo.status info = "unknown" \/ StatusInfo.status info = "error")
         /\ StatusInfo.is_overdue info = false
         /\ StatusInfo.days_until_due info = 0).
Proof.
  intros _ W. apply refused_text_failure_values. by rewrite well_formed_written.
Qed.

(** No operation lets the [ValueError] of the parse out, whatever the string. *)
Lemma no_ValueError_propagates s other months :
  validate_inspection_date today s <> Raise ValueError
  /\ validate_last_inspection_date today s <> Raise ValueError
  /\ validate_date_range s other <> Raise ValueError
  /\ calculate_next_inspection_date s months <> Raise ValueError
  /\ is_overdue today s months <> Raise ValueError
  /\ get_days_until_due today s months <> Raise ValueError
  /\ get_inspection_status today s months <> Raise ValueError.
Proof.
  assert (H : forall A (b h : result A),
             h <> Raise ValueError -> Py.except_ValueError b h <> Raise ValueError).
  { intros A [a | []] h Hh; cbn; done. }
  repeat split; apply H; discriminate.
Qed.

End DateValidatorFacts.

Lemma status_classification_witness :
  (exists info,
      DateValidator.get_inspection_status (_ymd2ord 2025 3 11) "2024-03-15" 12 = Ok info
      /\ StatusInfo.status info = "overdue"%string).
Proof.
  destruct (status_classification (_ymd2ord 2025 3 11) "2024-03-15" 12
              (_ymd2ord 2024 3 15) eq_refl ltac:(vm_compute; discriminate) eq_refl)
    as [(info & Hi & Hd & Hover & _) _].
  exists info. split; [exact Hi|]. apply Hover. vm_compute. reflexivity.
Defined.

Lemma overdue_iff_negative_days_witness :
  DateValidator.is_overdue (_ymd2ord 2025 3 11) "2024-03-15" 12 = Ok true
  <-> exists d, DateValidator.get_days_until_due (_ymd2ord 2025 3 11) "2024-03-15" 12 = Ok d
                /\ d < 0.
Proof.
  exact (proj1 (overdue_iff_negative_days (_ymd2ord 2025 3 11) "2024-03-15" 12
                  (_ymd2ord 2024 3 15) eq_refl)).
Defined.

Lemma next_inspection_date_30_day_months_witness :
  exists next,
    DateValidator.calculate_next_inspection_date "2024-03-15" 12 = Ok next
    /\ next = strftime_iso (_ymd2ord 2024 3 15 + 12 * 30)
    /\ strptime next = Ok (_ymd2ord 2024 3 15 + 12 * 30).
Proof.
  exact (proj1 (next_inspection_date_30_day_months "2024-03-15" 12
                  (_ymd2ord 2024 3 15) eq_refl ltac:(vm_compute; discriminate) eq_refl
                  eq_refl)).
Defined.

Lemma malformed_date_is_typed_failure_witness :
  DateValidator.calculate_next_inspection_date "15/03/2024" 12 = Ok ""%string
  /\ DateValidator.is_overdue (_ymd2ord 2025 3 11) "15/03/2024" 12 = Ok false.
Proof.
  pose proof (malformed_date_is_typed_failure (_ymd2ord 2025 3 11) "15/03/2024"
                "2024-01-01" 12 eq_refl eq_refl) as H.
  split; [exact (proj1 (proj2 (proj2 (proj2 (proj2 H)))))
         | exact (proj1 (proj2 (proj2 (proj2 (proj2 (proj2 H))))))].
Defined.

(** C9, as it is stated, fails: texts that are not of the form YYYY-MM-DD,
    a month and a day of one digit or a day after a blank, are taken as
    dates, and the operations return regular values and not their failure
    values. *)
Lemma short_date_is_taken_as_date :
  iso_form "2024-3-5" = false /\ iso_form "2024-03- 9" = false
  /\ is_ascii "2024-3-5" = true /\ is_ascii "2024-03- 9" = true
  /\ DateValidator.calculate_next_inspection_date "2024-3-5" 12 = Ok "2025-02-28"%string
  /\ DateValidator.is_overdue (_ymd2ord 2025 3 11) "2024-3-5" 12 = Ok true
  /\ DateValidator.get_days_until_due (_ymd2ord 2025 3 11) "2024-3-5" 12 = Ok (-11)
  /\ DateValidator.validate_date_range "2024-3-5" "2024-03- 9"
     = Ok (true, "Intervalo válido"%string).
Proof. vm_compute. repeat split. Qed.

(** The boundaries of the classification on dates around 2025-01-01. *)
Example status_boundaries :
  let today := _ymd2ord 2025 1 1 in
  let status s :=
    match DateValidator.get_inspection_status today s 12 with
    | Ok info => (StatusInfo.days_until_due info, StatusInfo.status info)
    | Raise _ => (0, ""%string)
    end in
  status "2024-01-06"%string = (-1, "overdue"%string)
  /\ status "2024-01-07"%string = (0, "warning"%string)
  /\ status "2024-02-06"%string = (30, "warning"%string)
  /\ status "2024-02-07"%string = (31, "attention"%string)
  /\ status "2024-04-06"%string = (90, "attention"%string)
  /\ status "2024-04-07"%string = (91, "ok"%string).
Proof. vm_compute. repeat split. Qed.

(** ** [database.py] *)

Section DatabaseFacts.

Import Database Examples.
Local Open Scope string_scope.
Local Open Scope list_scope.
Local Open Scope Z_scope.

Lemma filter_id_absent inspection_id rows :
  Forall (fun r => id r <> inspection_id) rows ->
  List.filter (fun r => id r =? inspection_id) rows = [].
Proof.
  induction 1 as [|r rows Hr _ IH]; [done|].
  cbn. destruct (Z.eqb_spec (id r) inspection_id); [done | exact IH].
Qed.

Lemma filter_id_keep inspection_id rows :
  Forall (fun r => id r <> inspection_id) rows ->
  List.filter (fun r => negb (id r =? inspection_id)) rows = rows.
Proof.
  induction 1 as [|r rows Hr _ IH]; [done|].
  cbn. destruct (Z.eqb_spec (id r) inspection_id); [done | by rewrite IH].
Qed.

Lemma get_inspection_by_id_absent inspection_id d :
  Forall (fun r => id r <> inspection_id) (inspecoes d) ->
  get_inspection_by_id inspection_id d = None.
Proof. intros H. unfold get_inspection_by_id. by rewrite filter_id_absent. Qed.

Lemma existsb_id_absent {A} inspection_id rows (g : inspecao -> A -> bool) (hs : list A) :
  Forall (fun r => id r <> inspection_id) rows ->
  existsb (fun r => (id r =? inspection_id) && existsb (g r) hs) rows = false.
Proof.
  induction 1 as [|r rows Hr _ IH]; [done|].
  cbn. destruct (Z.eqb_spec (id r) inspection_id); [done | exact IH].
Qed.

(** C10. For an identifier that no row of [inspecoes] has,
    [update_inspection] finds no record, returns [False] and leaves both
    tables as they were: nothing is updated, nothing is logged. *)
Theorem update_unknown_id_changes_nothing now current_timestamp inspection_id data d :
  Forall (fun r => id r <> inspection_id) (inspecoes d) ->
  get_inspection_by_id inspection_id d = None
  /\ update_inspection now current_timestamp inspection_id data d = (false, d).
Proof.
  intros H. pose proof (get_inspection_by_id_absent _ _ H) as Hg.
  split; [exact Hg|]. unfold update_inspection. by rewrite Hg.
Qed.

(** For an identifier of 64 bits that no row of [inspecoes] has,
    [delete_inspection] changes nothing, neither a table nor a file, and
    returns [True]. *)
Lemma delete_absent_identifier inspection_id d f :
  - 2 ^ 63 <= inspection_id < 2 ^ 63 ->
  Forall (fun r => id r <> inspection_id) (inspecoes d) ->
  delete_inspection inspection_id (d, f) = (true, (d, f)).
Proof.
  intros _ H. unfold delete_inspection, sql_delete_inspecoes.
  rewrite (get_inspection_by_id_absent _ _ H), (existsb_id_absent _ _ _ _ H),
    (filter_id_keep _ _ H).
  by destruct d.
Qed.

Lemma remove_photo_undeletable f p : undeletable (remove_photo f p) = undeletable f.
Proof.
  unfold remove_photo. destruct (_ && _); [|done].
  destruct p as [|s|n]; cbn; try done. by destruct (_ && _).
Qed.

Lemma remove_photo_files f p s :
  s ∈ files (remove_photo f p)
  <-> s ∈ files f /\ ~ (p = VStr s /\ s <> "" /\ s ∉ undeletable f).
Proof.
  unfold remove_photo. destruct p as [|s0|n]; cbn.
  - split; [intros H; split; [done | by intros [? _]] | by intros [? _]].
  - destruct (String.eqb_spec s0 "") as [-> | Hne]; cbn.
    + split; [intros H; split; [done | intros ([= <-] & ? & _); done] | by intros [? _]].
    + case_bool_decide as Hin; cbn.
      * case_bool_decide as Hun; cbn.
        -- split; [intros H; split; [done | intros ([= <-] & _ & ?); done]
                  | by intros [? _]].
        -- rewrite elem_of_difference, elem_of_singleton. split.
           ++ intros [? Hs]. split; [done|]. intros ([= ->] & _). done.
           ++ intros [? Hs]. split; [done|]. intros ->. apply Hs. done.
      * split; [intros H; split; [done | intros ([= <-] & _ & _); done] | by intros [? _]].
  - rewrite andb_false_r.
    split; [intros H; split; [done | by intros [? _]] | by intros [? _]].
Qed.

Lemma remove_photos_undeletable l f :
  undeletable (fold_left remove_photo l f) = undeletable f.
Proof.
  revert f. induction l as [|p l IH]; intros f; [done|].
  cbn. by rewrite IH, remove_photo_undeletable.
Qed.

(** The files that the loop over the photo paths leaves. *)
Lemma remove_photos_files l f s :
  s ∈ files (fold_left remove_photo l f)
  <-> s ∈ files f /\ ~ (In (VStr s) l /\ s <> "" /\ s ∉ undeletable f).
Proof.
  revert f. induction l as [|p l IH]; intros f; cbn.
  - split; [intros H; split; [done | by intros [[] _]] | by intros [? _]].
  - rewrite IH, remove_photo_files, remove_photo_undeletable. split.
    + intros [[Hf Hp] Hl]. split; [done|]. intros ([-> | Hin] & ? & ?).
      * by apply Hp.
      * by apply Hl.
    + intros [Hf Hn]. split; [split; [done|]|].
      * intros (-> & ? & ?). apply Hn. auto.
      * intros (? & ? & ?). apply Hn. auto.
Qed.

Lemma filter_all_doomed (rows : list inspecao) :
  List.filter (fun _ : inspecao => negb true) rows = [].
Proof. by induction rows. Qed.

(** C8, as the code has it. After [clear_all_inspections] has returned
    [True], both tables are empty and every photo that a record referenced
    is gone from the disk, unless its removal raised (the error is printed
    and ignored); whether a file exists does not change the flag, so a
    photo that is already absent makes nothing fail. *)
Theorem clear_all_inspections_success d f d' f' :
  clear_all_inspections (d, f) = (true, (d', f')) ->
  inspecoes d' = [] /\ historico_alteracoes d' = []
  /\ (forall r s, In r (inspecoes d) -> foto_path r = VStr s -> s <> "" ->
                  s ∉ undeletable f -> s ∉ files f')
  /\ (forall f2, fst (clear_all_inspections (d, f2)) = true).
Proof.
  unfold clear_all_inspections, sql_delete_inspecoes.
  destruct (existsb _ (inspecoes d)); [discriminate|].
  intros [= <- <-]. cbn. rewrite filter_all_doomed.
  repeat split.
  intros r s Hr Hp Hs Hu. rewrite remove_photos_files. intros [_ Hn]. apply Hn.
  split; [|done]. apply filter_In. split; [|done].
  apply in_map_iff. eauto.
Qed.

(** With the foreign key enforced, the flag of [clear_all_inspections]
    tells whether a change-log row references a stored record. *)
Lemma clear_all_inspections_flag d f :
  fst (clear_all_inspections (d, f))
  = negb (existsb
            (fun r => existsb (fun h => inspecao_id h =? id r) (historico_alteracoes d))
            (inspecoes d)).
Proof.
  unfold clear_all_inspections, sql_delete_inspecoes. cbn [andb].
  by destruct (existsb _ (inspecoes d)).
Qed.

End DatabaseFacts.

Lemma clear_all_inspections_success_witness :
  Database.clear_all_inspections (Examples.photo_db, Examples.empty_fs)
  = (true, (Database.mk_db [] [] 1 0, Examples.empty_fs))
  /\ forall f2, fst (Database.clear_all_inspections (Examples.photo_db, f2)) = true.
Proof.
  split; [reflexivity|].
  exact (proj2 (proj2 (proj2
           (clear_all_inspections_success Examples.photo_db Examples.empty_fs
              (Database.mk_db [] [] 1 0) Examples.empty_fs eq_refl)))).
Defined.

(** C8, as it is stated, fails: [clear_all_inspections] returns [True] and
    empties the tables while the photo of the record, whose removal raises,
    is still on the disk. *)
Lemma clear_leaves_undeletable_photo :
  Database.foto_path Examples.photo_row = Database.VStr "fotos_inspecoes/a.jpg"
  /\ In Examples.photo_row (Database.inspecoes Examples.photo_db)
  /\ (exists d' f',
         Database.clear_all_inspections (Examples.photo_db, Examples.locked_fs)
         = (true, (d', f'))
         /\ Database.inspecoes d' = [] /\ Database.historico_alteracoes d' = []
         /\ "fotos_inspecoes/a.jpg"%string ∈ Database.files f').
Proof.
  split; [reflexivity|]. split; [by left|].
  eexists _, _. split; [reflexivity|]. split; [reflexivity|]. split; [reflexivity|].
  vm_compute. set_solver.
Qed.

(** C1: the update that submits the very field set that was saved appends
    five change-log rows, one for each column whose name differs from the
    key of the submitted dictionary, each with an empty new value. *)
Theorem update_with_identical_values_logs_rows :
  Database.save_inspection "2025-01-10T09:00:00" Examples.form_data Examples.empty_db
  = (Ok 1, Examples.stored_db)
  /\ (let '(ok, d') :=
        Database.update_inspection "2025-01-11T10:00:00" "2025-01-11 13:00:00" 1
          Examples.form_data Examples.stored_db in
      ok = true
      /\ map (fun h => (Database.campo h, Database.valor_anterior h, Database.valor_novo h))
             (Database.historico_alteracoes d')
         = [("tipo_equipamento", "Tanque", ""); ("categoria_rti", "II", "");
            ("ultima_inspecao", "2024-03-15", ""); ("data_inspecao", "2025-01-10", "");
            ("tipo_dano", "Localizado", "")]%string
      /\ map (fun r => (Database.tipo_equipamento r, Database.categoria_rti r,
                        Database.ultima_inspecao r, Database.data_inspecao r,
                        Database.tipo_dano r))
             (Database.inspecoes d')
         = map (fun r => (Database.tipo_equipamento r, Database.categoria_rti r,
                          Database.ultima_inspecao r, Database.data_inspecao r,
                          Database.tipo_dano r))
               (Database.inspecoes Examples.stored_db)).
Proof. vm_compute. repeat split. Qed.

Lemma update_unknown_id_changes_nothing_witness :
  Database.update_inspection "2025-01-11T10:00:00" "2025-01-11 13:00:00" 7
    Examples.form_data Examples.stored_db = (false, Examples.stored_db).
Proof.
  refine (proj2 (update_unknown_id_changes_nothing _ _ 7 Examples.form_data
                   Examples.stored_db _)).
  vm_compute. repeat constructor; discriminate.
Defined.

(** Once an update has logged a change of a record, the foreign key
    refuses its deletion and the clearing of the tables. *)
Example foreign_key_blocks_delete :
  let d := snd (Database.update_inspection "2025-01-11T10:00:00" "2025-01-11 13:00:00" 1
                  Examples.form_data Examples.stored_db) in
  Database.delete_inspection 1 (d, Examples.empty_fs) = (false, (d, Examples.empty_fs))
  /\ Database.clear_all_inspections (d, Examples.empty_fs)
     = (false, (d, Examples.empty_fs)).
Proof. split; reflexivity. Qed.

(** C6: the deletion of an identifier that no record has reports success.
    On the database that holds the record 1 alone, [delete_inspection] of 7
    finds no record and changes neither a table nor a file, as the claim
    says, but returns [True]; [update_inspection] of the same identifier
    returns [False]. *)
Theorem delete_unknown_id_reports_success :
  map Database.id (Database.inspecoes Examples.stored_db) = [1]
  /\ Database.get_inspection_by_id 7 Examples.stored_db = None
  /\ Database.delete_inspection 7 (Examples.stored_db, Examples.locked_fs)
     = (true, (Examples.stored_db, Examples.locked_fs))
  /\ Database.update_inspection "2025-01-11T10:00:00" "2025-01-11 13:00:00" 7
       Examples.form_data Examples.stored_db
     = (false, Examples.stored_db).
Proof. repeat split. Qed.

(** ** [main.py]: required fields *)

Section FormFacts.

Import Database InspectionFormApp.
Local Open Scope string_scope.
Local Open Scope list_scope.
Local Open Scope Z_scope.

Variable now : string.
Variable generate_inspection_report : gmap string value -> value -> result string.
Variable exn_text : exn -> string.

(** What the loop of [validate_form] does: it checks the first three
    fields and then reads an attribute that the form does not have. *)
Lemma validate_form_unfold f :
  validate_form f =
  if String.eqb (strip (plataforma_var f)) ""
  then Ok (false, [showerror "Validação" "Campo 'Plataforma' é obrigatório!"])
  else if String.eqb (strip (modulo_var f)) ""
  then Ok (false, [showerror "Validação" "Campo 'Módulo' é obrigatório!"])
  else if String.eqb (strip (setor_var f)) ""
  then Ok (false, [showerror "Validação" "Campo 'Setor' é obrigatório!"])
  else Raise AttributeError.
Proof.
  unfold validate_form, required_fields.
  cbn [validate_fields].
  change (getattr_get f ("plataforma" +:+ "_var")) with (Ok (plataforma_var f)).
  change (getattr_get f ("modulo" +:+ "_var")) with (Ok (modulo_var f)).
  change (getattr_get f ("setor" +:+ "_var")) with (Ok (setor_var f)).
  change (getattr_get f ("tipoEquipamento" +:+ "_var"))
    with (@Raise string AttributeError).
  cbn [mbind result_bind Py.bind].
  repeat destruct (String.eqb _ ""); reflexivity.
Qed.

(** The save command of the form never reaches the insert. *)
Lemma save_inspection_shows_error f d :
  exists title message,
    save_inspection now generate_inspection_report exn_text f d
    = ([showerror title message], d).
Proof.
  unfold save_inspection. rewrite validate_form_unfold.
  repeat destruct (String.eqb _ ""); eexists _, _; reflexivity.
Qed.

End FormFacts.

(** C2, as it is stated, fails: the persistence component saves a field
    set in which every field is empty. *)
Lemma save_inspection_accepts_empty_fields :
  Database.get ∅ "plataforma" = Database.VStr ""
  /\ (exists d',
         Database.save_inspection "2025-01-10T09:00:00" ∅ Examples.empty_db = (Ok 1, d')
         /\ length (Database.inspecoes d') = 1%nat
         /\ map Database.plataforma (Database.inspecoes d') = [Database.VStr ""]).
Proof. split; [reflexivity|]. eexists. repeat split. Qed.

(** ** [report_generator.py]: the batch *)

Section ReportFacts.

Import Database ReportGenerator.
Local Open Scope string_scope.
Local Open Scope list_scope.

Variable output_dir : string.
Variable today : date.
Variable generated_at : string.
Variable fs : filesystem.
Variable image_error : string -> option string.
Variable doc_build : string -> list flowable -> result unit.
Variable clock : nat -> string.

Local Abbreviation generate :=
  (generate_inspection_report output_dir today generated_at fs image_error doc_build).
Local Abbreviation report := (report_of output_dir today generated_at fs image_error doc_build clock).
Local Abbreviation returned :=
  (count_returned output_dir today generated_at fs image_error doc_build clock).
Local Abbreviation loop := (batch_loop output_dir today generated_at fs image_error doc_build clock).
Local Abbreviation batch :=
  (generate_batch_reports output_dir today generated_at fs image_error doc_build clock).

(** A photo that is not on the disk is left out of the story: the report
    is the one of a record without photo. *)
Lemma missing_photo_is_skipped timestamp data photo_path :
  path_exists fs photo_path = false ->
  generate timestamp data photo_path = generate timestamp data VNone.
Proof.
  intros H. unfold generate_inspection_report, photo_block.
  by rewrite H, andb_false_r.
Qed.

Lemma batch_loop_spec n inspections : forall i files log,
  let '(files', log') := loop n i inspections files log in
  length files' = (length files + returned i inspections)%nat
  /\ (length files' + length (List.filter is_failed log')
      = length files + length (List.filter is_failed log) + length inspections)%nat
  /\ length log' = (length log + length inspections)%nat.
Proof.
  induction inspections as [|x rest IH]; intros i files log; cbn [batch_loop count_returned].
  - cbn. lia.
  - fold (report i x). destruct (report i x) as [pdf | e]; cbn [returns].
    + specialize (IH (S i) (files ++ [pdf]) (log ++ [Generated i n (basename pdf)])).
      destruct (loop _ _ _ _ _) as [files' log'].
      rewrite List.filter_app, !length_app in IH. cbn in IH. cbn [length]. lia.
    + specialize (IH (S i) files (log ++ [Failed i e])).
      destruct (loop _ _ _ _ _) as [files' log'].
      rewrite List.filter_app, !length_app in IH. cbn in IH. cbn [length]. lia.
Qed.

(** C7, as the code has it. The batch never raises; it returns one file for
    each record whose report is generated and prints one failure for each
    of the others, so that files and failures add up to N, and its last
    line reports the number of files against N.  A photo path that is not
    on the disk is no failure: the record is rendered without the photo. *)
Theorem batch_reports_are_counted inspections :
  let '(generated_files, log) := batch inspections in
  length generated_files = returned 1%nat inspections
  /\ (length generated_files + length (List.filter is_failed log)
      = length inspections)%nat
  /\ List.last log (Summary 0 0)
     = Summary (length generated_files) (length inspections)
  /\ (forall timestamp inspection,
         path_exists fs (get_or inspection "foto_path" VNone) = false ->
         generate timestamp inspection (get_or inspection "foto_path" VNone)
         = generate timestamp inspection VNone).
Proof.
  unfold generate_batch_reports.
  pose proof (batch_loop_spec (length inspections) inspections 1%nat [] []) as H.
  destruct (loop _ _ _ _ _) as [files log]. destruct H as (H1 & H2 & _).
  cbn in H1, H2.
  rewrite List.filter_app, length_app, last_last. cbn [List.filter is_failed length].
  repeat split; [lia | lia |].
  intros timestamp inspection. apply missing_photo_is_skipped.
Qed.

End ReportFacts.

(** C7, as it is stated, fails: the batch over one record whose photo is
    not on the disk generates its report, one file for N = 1 and not N - 1. *)
Lemma batch_with_missing_photo_generates_all :
  ReportGenerator.get_or Examples.photo_record "foto_path" Database.VNone
  = Database.VStr "fotos_inspecoes/a.jpg"
  /\ Database.path_exists Examples.empty_fs (Database.VStr "fotos_inspecoes/a.jpg") = false
  /\ Examples.batch_of_missing_photo
     = (["relatorios/relatorio_inspecao_TQ-001_20250110_090000.pdf"%string],
        [ReportGenerator.Generated 1 1 "relatorio_inspecao_TQ-001_20250110_090000.pdf";
         ReportGenerator.Summary 1 1])
  /\ length (fst Examples.batch_of_missing_photo) <> (1 - 1)%nat.
Proof. vm_compute. repeat split. discriminate. Qed.

(** * Further properties *)

Section MoreCalendar.

Import Aux Derived DateValidator.
Local Open Scope string_scope.
Local Open Scope list_scope.
Local Open Scope Z_scope.

Ltac calc_tables :=
  repeat match goal with
  | |- context [tbl ?t ?k] =>
      let v := eval vm_compute in (tbl t k) in change (tbl t k) with v
  | H : context [tbl ?t ?k] |- _ =>
      let v := eval vm_compute in (tbl t k) in change (tbl t k) with v in H
  end;
  cbv [andb Z.eqb Z.gtb Z.compare Pos.compare Pos.compare_cont Pos.eqb] in *.

Ltac month_cases m :=
  let Hc := fresh "Hc" in
  assert (m = 1 \/ m = 2 \/ m = 3 \/ m = 4 \/ m = 5 \/ m = 6 \/ m = 7 \/ m = 8
          \/ m = 9 \/ m = 10 \/ m = 11 \/ m = 12) as Hc by lia;
  repeat destruct Hc as [-> | Hc]; try subst m.

Ltac run := cbn [mbind result_bind Py.bind Py.except_ValueError].




Lemma day_of_year_bound y m d :
  1 <= m <= 12 -> 1 <= d <= _days_in_month y m ->
  1 <= _days_before_month y m + d <= 365 + leap_day y.
Proof.
  intros Hm Hd. unfold _days_before_month, _days_in_month, leap_day in *.
  month_cases m; destruct (_is_leap y); calc_tables; lia.
Qed.

Lemma days_before_year_step y :
  _days_before_year (y + 1) = _days_before_year y + 365 + leap_day y.
Proof.
  unfold _days_before_year, leap_day, _is_leap.
  repeat match goal with
  | |- context [?x =? ?y] => destruct (Z.eqb_spec x y)
  end; cbn [andb orb negb]; Z.div_mod_to_equations; lia.
Qed.

Lemma days_before_year_mono y y' :
  y <= y' -> _days_before_year y <= _days_before_year y'.
Proof. unfold _days_before_year. intros. Z.div_mod_to_equations. lia. Qed.

Lemma ymd2ord_year_lt y m d y' m' d' :
  1 <= m <= 12 -> 1 <= d <= _days_in_month y m ->
  1 <= m' <= 12 -> 1 <= d' ->
  y < y' -> _ymd2ord y m d < _ymd2ord y' m' d'.
Proof.
  intros Hm Hd Hm' Hd' Hy. unfold _ymd2ord.
  pose proof (day_of_year_bound y m d Hm Hd).
  pose proof (days_before_year_step y).
  pose proof (days_before_year_mono (y + 1) y' ltac:(lia)).
  assert (0 <= _days_before_month y' m').
  { unfold _days_before_month. month_cases m'; destruct (_is_leap y'); calc_tables; lia. }
  lia.
Qed.

Lemma ymd2ord_month_lt y m d m' d' :
  1 <= m <= 12 -> 1 <= d <= _days_in_month y m ->
  1 <= m' <= 12 -> 1 <= d' ->
  m < m' -> _ymd2ord y m d < _ymd2ord y m' d'.
Proof.
  intros Hm Hd Hm' Hd' Hlt. unfold _ymd2ord, _days_before_month, _days_in_month in *.
  month_cases m; month_cases m'; try lia; destruct (_is_leap y); calc_tables; lia.
Qed.

Lemma ymd2ord_inj y m d y' m' d' :
  1 <= m <= 12 -> 1 <= d <= _days_in_month y m ->
  1 <= m' <= 12 -> 1 <= d' <= _days_in_month y' m' ->
  _ymd2ord y m d = _ymd2ord y' m' d' -> (y, m, d) = (y', m', d').
Proof.
  intros Hm Hd Hm' Hd' E.
  assert (y = y') as <-.
  { destruct (Z.lt_trichotomy y y') as [H | [H | H]]; [|done|].
    - pose proof (ymd2ord_year_lt y m d y' m' d'). lia.
    - pose proof (ymd2ord_year_lt y' m' d' y m d). lia. }
  assert (m = m') as <-.
  { destruct (Z.lt_trichotomy m m') as [H | [H | H]]; [|done|].
    - pose proof (ymd2ord_month_lt y m d m' d'). lia.
    - pose proof (ymd2ord_month_lt y m' d' m d). lia. }
  unfold _ymd2ord in E. f_equal. lia.
Qed.

Lemma check_date_fields_spec y m d :
  _check_date_fields y m d = true
  <-> 1 <= y <= 9999 /\ 1 <= m <= 12 /\ 1 <= d <= _days_in_month y m.
Proof.
  unfold _check_date_fields, MINYEAR, MAXYEAR.
  rewrite !andb_true_iff, !Z.leb_le. tauto.
Qed.

Lemma ord2ymd_ymd2ord y m d :
  _check_date_fields y m d = true -> _ord2ymd (_ymd2ord y m d) = (y, m, d).
Proof.
  intros Hc. apply check_date_fields_spec in Hc as (Hy & Hm & Hd).
  assert (1 <= _ymd2ord y m d).
  { pose proof (day_of_year_bound y m d Hm Hd).
    pose proof (days_before_year_mono 1 y ltac:(lia)).
    unfold _ymd2ord. change (_days_before_year 1) with 0 in *. lia. }
  destruct (ord2ymd_spec _ H) as (y' & m' & d' & Ho & E & Hy' & Hm' & Hd').
  rewrite Ho. by apply ymd2ord_inj.
Qed.

(** ** [date_validator.py] *)


(** What [strptime] returns is the ordinal of a day of the calendar. *)
Lemma strptime_fields s dt :
  strptime s = Ok dt ->
  exists y m d, _check_date_fields y m d = true /\ dt = _ymd2ord y m d.
Proof.
  unfold strptime.
  destruct (re_match s) as [[[[y m] d] rest]|]; [|discriminate].
  destruct (negb _); [discriminate|].
  destruct (_check_date_fields y m d) eqn:Hc; [|discriminate].
  intros [= <-]. eauto.
Qed.

Section S.
Variable today : date.

(** X1. A date that parses is accepted by [validate_inspection_date]
    exactly when it lies in the last 30 days, today and the thirtieth day
    back included, and by [validate_last_inspection_date] exactly when it
    lies in the last 3650 days. *)
Theorem validation_windows s dt :
  strptime s = Ok dt ->
  (valid_ordinal (today - 30) = true ->
   exists msg, validate_inspection_date today s
               = Ok ((today - 30 <=? dt) && (dt <=? today), msg))
  /\ (valid_ordinal (today - 3650) = true ->
      exists msg, validate_last_inspection_date today s
                  = Ok ((today - 3650 <=? dt) && (dt <=? today), msg)).
Proof.
  intros Hs. unfold validate_inspection_date, validate_last_inspection_date.
  rewrite (strptime_nonempty _ _ Hs), Hs. run.
  split; intros Hv.
  - rewrite (timedelta_ok 30 ltac:(lia)). run. unfold date_sub.
    rewrite (date_add_ok today (- (30)) Hv). run.
    replace (today + - (30)) with (today - 30) by lia.
    destruct (Z.gtb_spec dt today), (Z.ltb_spec dt (today - 30)),
      (Z.leb_spec (today - 30) dt), (Z.leb_spec dt today);
      try lia; eexists; reflexivity.
  - rewrite (timedelta_ok 3650 ltac:(lia)). run. unfold date_sub.
    rewrite (date_add_ok today (- (3650)) Hv). run.
    replace (today + - (3650)) with (today - 3650) by lia.
    destruct (Z.gtb_spec dt today), (Z.ltb_spec dt (today - 3650)),
      (Z.leb_spec (today - 3650) dt), (Z.leb_spec dt today);
      try lia; eexists; reflexivity.
Qed.

(** X2. Two dates that parse are a valid range exactly when the start is
    not after the end and the end is at most 365 days after the start. *)
Theorem date_range_window start_date end_date start end_ :
  strptime start_date = Ok start -> strptime end_date = Ok end_ ->
  exists msg,
    validate_date_range start_date end_date
    = Ok ((start <=? end_) && (end_ - start <=? 365), msg).
Proof.
  intros Hs He. unfold validate_date_range.
  rewrite (strptime_nonempty _ _ Hs), (strptime_nonempty _ _ He), Hs, He. run.
  destruct (Z.gtb_spec start end_), (Z.gtb_spec (end_ - start) 365),
    (Z.leb_spec start end_), (Z.leb_spec (end_ - start) 365);
    try lia; eexists; reflexivity.
Qed.

(** X3. The record of [get_inspection_status] and the three single operations
    give the same answers, and raise together. *)
Theorem status_agrees_with_operations s months :
  match get_inspection_status today s months with
  | Ok info =>
      is_overdue today s months = Ok (StatusInfo.is_overdue info)
      /\ get_days_until_due today s months = Ok (StatusInfo.days_until_due info)
      /\ calculate_next_inspection_date s months
         = Ok (StatusInfo.next_inspection_date info)
  | Raise e =>
      is_overdue today s months = Raise e
      /\ get_days_until_due today s months = Raise e
      /\ calculate_next_inspection_date s months = Raise e
  end.
Proof.
  unfold get_inspection_status, is_overdue, get_days_until_due,
    calculate_next_inspection_date.
  destruct (String.eqb_spec s "") as [-> | Hne]; [by cbn|].
  destruct (strptime_cases s) as [[dt Hs] | Hs]; rewrite Hs; run; [|done].
  destruct (timedelta_cases (months * 30)) as [-> | ->]; run; [|done].
  destruct (date_add_cases dt (months * 30)) as [-> | ->]; run; [|done].
  assert (E : (today >? dt + months * 30) = (dt + months * 30 - today <? 0)).
  { destruct (Z.gtb_spec today (dt + months * 30)),
      (Z.ltb_spec (dt + months * 30 - today) 0); lia || reflexivity. }
  rewrite E.
  destruct (_ <? 0); [|destruct (_ <=? 30); [|destruct (_ <=? 90)]];
    cbn; repeat split; reflexivity.
Qed.

(** X4. Once overdue, always overdue; and each day that passes takes one day
    from the days until the due date. *)
Theorem overdue_is_monotone s months later :
  today <= later ->
  (is_overdue today s months = Ok true -> is_overdue later s months = Ok true)
  /\ (forall dt n, strptime s = Ok dt -> get_days_until_due today s months = Ok n ->
        get_days_until_due later s months = Ok (n - (later - today))).
Proof.
  intros Hl. unfold is_overdue, get_days_until_due.
  destruct (String.eqb_spec s "") as [-> | Hne].
  { cbn. split; [discriminate | discriminate]. }
  destruct (strptime_cases s) as [[dt Hs] | Hs]; rewrite Hs; run;
    [|split; [discriminate | intros ? ? [=]]].
  destruct (timedelta_cases (months * 30)) as [-> | ->]; run;
    [|split; [discriminate | intros ? ? _ [=]]].
  destruct (date_add_cases dt (months * 30)) as [-> | ->]; run;
    [|split; [discriminate | intros ? ? _ [=]]].
  split.
  - intros [= H]. f_equal. lia.
  - intros ? n _ [= <-]. f_equal. lia.
Qed.

End S.

(** [add_days]: a text that is no date comes back as it is. *)
Lemma add_days_malformed s days : well_formed s = false -> add_days s days = Ok s.
Proof. intros H. unfold add_days. by rewrite (not_well_formed _ H). Qed.

Lemma add_days_ok s dt days :
  strptime s = Ok dt -> Z.abs days <= 999999999 -> valid_ordinal (dt + days) = true ->
  add_days s days = Ok (strftime_iso (dt + days)).
Proof.
  intros Hs Hd Hv. unfold add_days. rewrite Hs. run.
  rewrite (timedelta_ok _ Hd). run. by rewrite (date_add_ok _ _ Hv).
Qed.

Lemma add_days_cases s dt days :
  strptime s = Ok dt ->
  (Z.abs days <= 999999999 /\ valid_ordinal (dt + days) = true
   /\ add_days s days = Ok (strftime_iso (dt + days)))
  \/ ((Z.abs days > 999999999 \/ valid_ordinal (dt + days) = false)
      /\ add_days s days = Raise OverflowError).
Proof.
  intros Hs. unfold add_days, timedelta, date_add. rewrite Hs. run.
  destruct (Z.leb_spec (Z.abs days) 999999999); run; [|right; split; [lia | done]].
  destruct (valid_ordinal (dt + days)) eqn:Hv; run; [left | right]; auto.
Qed.

Lemma valid_ordinal_spec n : valid_ordinal n = true <-> 1 <= n <= 3652059.
Proof. unfold valid_ordinal, _MAXORDINAL. rewrite andb_true_iff, !Z.leb_le. tauto. Qed.

Lemma valid_ordinal_false n : valid_ordinal n = false <-> ~ (1 <= n <= 3652059).
Proof. rewrite <- valid_ordinal_spec. by destruct (valid_ordinal n). Qed.

(** [add_days] twice, against [add_days] of the sum. *)
Lemma add_days_twice s dt a b s1 :
  strptime s = Ok dt -> add_days s a = Ok s1 ->
  add_days s1 b = add_days s (a + b).
Proof.
  intros Hs H1.
  destruct (add_days_cases s dt a Hs) as [(Ha & Hva & E) | [_ E]];
    rewrite E in H1; [|discriminate].
  injection H1 as <-.
  pose proof (strptime_strftime_iso _ Hva) as Hs1.
  apply valid_ordinal_spec in Hva.
  pose proof (strptime_valid_ordinal _ _ Hs) as Hvd. apply valid_ordinal_spec in Hvd.
  destruct (add_days_cases _ _ b Hs1) as [(Hb & Hvb & ->) | [Hb ->]];
    destruct (add_days_cases s dt (a + b) Hs) as [(Hab & Hvab & ->) | [Hab ->]];
    try done.
  - by rewrite Z.add_assoc.
  - exfalso. apply valid_ordinal_spec in Hvb.
    destruct Hab as [Hab | Hab]; [lia|].
    apply valid_ordinal_false in Hab. lia.
  - exfalso. apply valid_ordinal_spec in Hvab.
    destruct Hb as [Hb | Hb]; [lia|].
    apply valid_ordinal_false in Hb. lia.
Qed.

(** X5. Two steps of [add_days] are one step of the sum: when the first step
    gives a date from the year 1000 on, the second step from it gives what
    one step of both numbers of days gives, the overflow error included. *)
Theorem add_days_compose s dt a b s1 :
  strptime s = Ok dt -> add_days s a = Ok s1 ->
  year_has_four_digits (dt + a) = true ->
  add_days s1 b = add_days s (a + b).
Proof. intros Hs H1 _. exact (add_days_twice s dt a b s1 Hs H1). Qed.

(** X6. Adding days and taking them away gives the day that was typed, written
    as YYYY-MM-DD, when the day and the day between are from the year 1000
    on. *)
Theorem add_days_round_trip s y m d days s1 :
  strptime s = Ok (_ymd2ord y m d) -> _check_date_fields y m d = true ->
  1000 <= y -> year_has_four_digits (_ymd2ord y m d + days) = true ->
  add_days s days = Ok s1 ->
  add_days s1 (- days) = Ok (pad4 y +:+ "-" +:+ pad2 m +:+ "-" +:+ pad2 d).
Proof.
  intros Hs Hc _ _ H1.
  rewrite (add_days_twice s _ days (- days) s1 Hs H1).
  replace (days + - days) with 0 by lia.
  pose proof (strptime_valid_ordinal _ _ Hs) as Hv.
  rewrite (add_days_ok s _ 0 Hs); [|lia|by rewrite Z.add_0_r].
  rewrite Z.add_0_r. unfold strftime_iso. by rewrite ord2ymd_ymd2ord.
Qed.

(** X7. The next inspection date is [add_days] of months of 30 days, on a
    date; on another text of ASCII characters the first gives the empty text
    and the second the text itself. *)
Theorem next_date_is_add_days s months :
  (well_formed s = true ->
   calculate_next_inspection_date s months = add_days s (months * 30))
  /\ (is_ascii s = true -> written_as_date s = false ->
      calculate_next_inspection_date s months = Ok "" /\ add_days s (months * 30) = Ok s).
Proof.
  rewrite <- well_formed_written.
  enough (H : (well_formed s = true ->
               calculate_next_inspection_date s months = add_days s (months * 30))
              /\ (well_formed s = false ->
                  calculate_next_inspection_date s months = Ok ""
                  /\ add_days s (months * 30) = Ok s))
    by (split; [apply H | intros _; apply H]).
  unfold well_formed, calculate_next_inspection_date, add_days.
  destruct (strptime_cases s) as [[dt ->] | ->]; cbn [returns]; split; intros H;
    try discriminate.
  - run.
    destruct (timedelta_cases (months * 30)) as [-> | ->]; run; [|done].
    by destruct (date_add_cases dt (months * 30)) as [-> | ->].
  - by cbn.
Qed.

Section D.
Variable today : date.
Variable month_name : Z -> string.

(** X8. [format_date] shows the day that was typed, from the year 1000 on, as
    DD/MM/YYYY; a text of ASCII characters that is no date comes back as it
    is. *)
Theorem format_date_shows_the_day s :
  (forall y m d,
      strptime s = Ok (_ymd2ord y m d) -> _check_date_fields y m d = true ->
      1000 <= y ->
      format_date today month_name s = Ok (pad2 d +:+ "/" +:+ pad2 m +:+ "/" +:+ pad4 y))
  /\ (is_ascii s = true -> written_as_date s = false ->
      format_date today month_name s = Ok s).
Proof.
  rewrite <- well_formed_written.
  unfold format_date, format_date_for_display. split.
  - intros y m d Hs Hc _. rewrite (strptime_nonempty _ _ Hs), Hs. run. cbn [String.eqb].
    change (String.eqb "short" "short") with true. cbv iota.
    unfold strftime_br. by rewrite ord2ymd_ymd2ord.
  - intros _ H. rewrite (not_well_formed _ H). run. by destruct (String.eqb s "") eqn:E;
      [apply String.eqb_eq in E as ->|].
Qed.

End D.


Lemma days_from_S first n : days_from first (S n) = first :: days_from (first + 1) n.
Proof.
  unfold days_from. cbn [seq map]. f_equal; [lia|].
  rewrite <- seq_shift, map_map. apply map_ext. intros k. lia.
Qed.

Lemma step_day current :
  valid_ordinal (current + 1) = true ->
  (timedelta 1 ≫= date_add current) = Ok (current + 1).
Proof. intros H. rewrite (timedelta_ok 1 ltac:(lia)). run. by apply date_add_ok. Qed.













(** ** Working days *)


Lemma count_working_days_S first n :
  count_working_days first (S n)
  = (if weekday first <? 5 then 1 else 0) + count_working_days (first + 1) n.
Proof.
  unfold count_working_days. rewrite days_from_S. cbn [List.filter].
  unfold is_working_day at 1. destruct (weekday first <? 5); cbn [length]; lia.
Qed.

Lemma working_days_loop_spec fuel : forall current end_ working_days,
  1 <= current -> end_ < _MAXORDINAL ->
  (Z.to_nat (end_ - current + 1) < fuel)%nat ->
  working_days_loop fuel current end_ working_days
  = Some (Ok (working_days + count_working_days current (Z.to_nat (end_ - current + 1)))).
Proof.
  induction fuel as [|fuel IH]; intros current end_ wd H1 Hl Hf; [lia|].
  cbn [working_days_loop]. destruct (Z.leb_spec current end_).
  - rewrite step_day by (apply valid_ordinal_spec; unfold _MAXORDINAL in *; lia).
    rewrite IH by lia.
    replace (Z.to_nat (end_ - current + 1))
      with (S (Z.to_nat (end_ - (current + 1) + 1))) by lia.
    rewrite count_working_days_S. do 2 f_equal.
    destruct (weekday current <? 5); lia.
  - replace (Z.to_nat (end_ - current + 1)) with 0%nat by lia.
    cbn. do 2 f_equal. unfold count_working_days. cbn. lia.
Qed.

Lemma working_days_loop_overflow fuel : forall current working_days,
  1 <= current <= _MAXORDINAL ->
  (Z.to_nat (_MAXORDINAL - current + 1) <= fuel)%nat ->
  working_days_loop fuel current _MAXORDINAL working_days = Some (Raise OverflowError).
Proof.
  induction fuel as [|fuel IH]; intros current wd Hc Hf;
    [unfold _MAXORDINAL in *; lia|].
  cbn [working_days_loop]. destruct (Z.leb_spec current _MAXORDINAL); [|lia].
  destruct (Z.eq_dec current _MAXORDINAL) as [-> | Hne].
  - reflexivity.
  - rewrite step_day by (apply valid_ordinal_spec; unfold _MAXORDINAL in *; lia).
    apply IH; unfold _MAXORDINAL in *; lia.
Qed.

Lemma weekday_range d : 0 <= weekday d < 7.
Proof. unfold weekday. apply Z.mod_pos_bound. lia. Qed.

Lemma weekday_shift d k : weekday (d + k) = (weekday d + k) mod 7.
Proof. unfold weekday. Z.div_mod_to_equations. lia. Qed.

(** Seven days in a row hold five working days. *)
Lemma week_has_five_working_days first : count_working_days first 7 = 5.
Proof.
  unfold count_working_days, days_from. cbn [seq map List.filter].
  unfold is_working_day. rewrite !weekday_shift.
  pose proof (weekday_range first) as Hr. set (w := weekday first) in *. clearbody w.
  assert (w = 0 \/ w = 1 \/ w = 2 \/ w = 3 \/ w = 4 \/ w = 5 \/ w = 6) as Hc by lia.
  clear Hr. repeat destruct Hc as [-> | Hc]; try subst w; reflexivity.
Qed.

Lemma count_working_days_bound first n :
  0 <= count_working_days first n <= Z.of_nat n.
Proof.
  unfold count_working_days. split; [lia|].
  pose proof (List.filter_length_le is_working_day (days_from first n)) as H.
  unfold days_from in H at 2. rewrite length_map, length_seq in H. lia.
Qed.

(** X10. The working days between two dates: the days from Monday to Friday of
    the range, both ends included; none when the range is empty, five in
    any seven days in a row, and never more than the days of the range. *)
Theorem working_days_between start_date end_date start end_ :
  strptime start_date = Ok start -> strptime end_date = Ok end_ ->
  end_ < _MAXORDINAL ->
  exists n,
    get_working_days_between start_date end_date = Some (Ok n)
    /\ n = count_working_days start (Z.to_nat (end_ - start + 1))
    /\ 0 <= n <= Z.max 0 (end_ - start + 1)
    /\ (end_ < start -> n = 0)
    /\ (end_ = start + 6 -> n = 5).
Proof.
  intros Hs He Hl. unfold get_working_days_between. rewrite Hs, He. run.
  pose proof (strptime_valid_ordinal _ _ Hs) as Hv. apply valid_ordinal_spec in Hv.
  rewrite working_days_loop_spec by lia.
  eexists. split; [reflexivity|]. rewrite Z.add_0_l. split; [reflexivity|].
  pose proof (count_working_days_bound start (Z.to_nat (end_ - start + 1))).
  split; [lia|]. split.
  - intros Hlt. replace (Z.to_nat (end_ - start + 1)) with 0%nat by lia. reflexivity.
  - intros ->. replace (Z.to_nat (start + 6 - start + 1)) with 7%nat by lia.
    apply week_has_five_working_days.
Qed.

(** X11. A range that ends on the last day of the calendar has no count: the
    step past 9999-12-31 raises [OverflowError], which is not caught.  A
    text of ASCII characters that is no date gives 0. *)
Theorem working_days_edges start_date end_date :
  (forall start, strptime start_date = Ok start -> strptime end_date = Ok _MAXORDINAL ->
                 get_working_days_between start_date end_date = Some (Raise OverflowError))
  /\ ((is_ascii start_date = true /\ written_as_date start_date = false)
      \/ (is_ascii end_date = true /\ written_as_date end_date = false) ->
      get_working_days_between start_date end_date = Some (Ok 0)).
Proof.
  rewrite <- !well_formed_written.
  unfold get_working_days_between. split.
  - intros start Hs He. rewrite Hs, He. run.
    pose proof (strptime_valid_ordinal _ _ Hs) as Hv. apply valid_ordinal_spec in Hv.
    rewrite working_days_loop_overflow; [done | unfold _MAXORDINAL; lia | lia].
  - intros [[_ H] | [_ H]]; apply not_well_formed in H.
    + by rewrite H.
    + rewrite H. by destruct (strptime_cases start_date) as [[d ->] | ->].
Qed.

End MoreCalendar.

(** ** [database.py] *)

Section MoreDatabase.

Import Derived Database.
Local Open Scope string_scope.
Local Open Scope list_scope.
Local Open Scope Z_scope.


Lemma not_null_ok_row_of i data c u :
  not_null_ok (row_of i data c u) = required_present data.
Proof.
  unfold not_null_ok, required_present, required_keys, row_of. cbn [forallb
    plataforma modulo setor tipo_equipamento tag defeito causa categoria_rti
    recomendacao ultima_inspecao data_inspecao tipo_dano].
  rewrite !negb_orb, andb_true_r, !andb_assoc. reflexivity.
Qed.

Lemma max_id_ge rows r : In r rows -> id r <= max_id rows.
Proof.
  unfold max_id. induction rows as [|x rows IH]; [done|].
  cbn [fold_right In]. intros [-> | H]; [lia|].
  specialize (IH H). lia.
Qed.



Section DB.
Variable now : string.
Variable current_timestamp : string.

Lemma stored_as_given_required data :
  stored_as_given data = true -> required_present data = true.
Proof.
  unfold stored_as_given, required_present.
  rewrite !andb_true_iff, !forallb_forall. intros [[[H _] _] _] k Hk.
  specialize (H k Hk). by destruct (get data k).
Qed.


(** C2, as the code has it. [save_inspection] checks nothing of its own: a
    dictionary with no [None] under a required key is inserted and its new
    identifier returned, and a required field that is empty or missing is
    stored as the empty text; a [None] under a required key is refused by
    the NOT NULL constraint, with an integrity error and the database as it
    was. *)
Theorem save_inspection_refuses_only_none data d :
  bindable data = true ->
  (required_present data = true ->
   exists new_id row d',
     save_inspection now data d = (Ok new_id, d')
     /\ inspecoes d' = inspecoes d ++ [row] /\ id row = new_id
     /\ (forall key column, In (key, column) required_columns ->
           get data key = VStr "" -> column row = VStr ""))
  /\ (required_present data = false ->
      save_inspection now data d = (Raise IntegrityError, d)).
Proof.
  intros _. unfold save_inspection, sql_insert_inspecao.
  set (new_id := Z.max (seq_inspecoes d) (max_id (inspecoes d)) + 1).
  fold (row_of new_id data (VStr now) (VStr now)).
  rewrite not_null_ok_row_of. split; intros ->; [|reflexivity].
  eexists _, _, _. split; [reflexivity|]. split; [reflexivity|]. split; [reflexivity|].
  intros key column Hin Hk. cbn in Hin.
  repeat destruct Hin as [[= <- <-] | Hin]; [exact Hk .. | done].
Qed.


(** X13. A [None] under a required key: the insert fails with an integrity
    error and the update returns [False]; the database stays as it was. *)
Theorem null_field_is_rejected data d :
  bindable data = true ->
  required_present data = false ->
  save_inspection now data d = (Raise IntegrityError, d)
  /\ (forall inspection_id,
        get_inspection_by_id inspection_id d <> None ->
        update_inspection now current_timestamp inspection_id data d = (false, d)).
Proof.
  intros _ Hreq. split.
  - unfold save_inspection, sql_insert_inspecao.
    set (new_id := Z.max (seq_inspecoes d) (max_id (inspecoes d)) + 1).
    fold (row_of new_id data (VStr now) (VStr now)).
    by rewrite not_null_ok_row_of, Hreq.
  - intros i Hi. unfold update_inspection, get_inspection_by_id in *.
    destruct (List.filter _ (inspecoes d)) as [|row rest] eqn:E; [done|].
    unfold sql_update_inspecao. rewrite E. cbn [map forallb].
    fold (row_of (id row) data (created_at row) (VStr now)).
    by rewrite not_null_ok_row_of, Hreq.
Qed.

Lemma filter_map_update i j (upd : inspecao -> inspecao) rows :
  (forall r, id (upd r) = id r) ->
  List.filter (fun r => id r =? j) (map (fun r => if id r =? i then upd r else r) rows)
  = map (fun r => if id r =? i then upd r else r) (List.filter (fun r => id r =? j) rows).
Proof.
  intros Hid. induction rows as [|r rows IH]; [done|]. cbn [map List.filter].
  assert (E : id (if id r =? i then upd r else r) = id r)
    by (destruct (id r =? i); [apply Hid | done]).
  rewrite E. destruct (id r =? j); cbn [map]; by rewrite IH.
Qed.

Lemma map_update_other i j (upd : inspecao -> inspecao) rows :
  i <> j ->
  map (fun r => if id r =? i then upd r else r) (List.filter (fun r => id r =? j) rows)
  = List.filter (fun r => id r =? j) rows.
Proof.
  intros Hne. induction rows as [|r rows IH]; [done|]. cbn [List.filter].
  destruct (Z.eqb_spec (id r) j) as [E | E]; [|exact IH].
  cbn [map]. rewrite IH. destruct (Z.eqb_spec (id r) i); [lia | done].
Qed.


Lemma log_fields_spec i old new fields : forall d,
  existsb (fun r => id r =? i) (inspecoes d) = true ->
  let d' := log_fields current_timestamp i old new fields d in
  inspecoes d' = inspecoes d /\ seq_inspecoes d' = seq_inspecoes d
  /\ exists suffix,
      historico_alteracoes d' = historico_alteracoes d ++ suffix
      /\ map log_entry suffix
         = map (fun field => (i, field, str (dict_get old field (VStr "")),
                              str (get new field), current_timestamp))
               (List.filter (fun field => negb (is_skipped field) && differs old new field)
                            fields)
      /\ seq_historico d <= seq_historico d'
      /\ (forall h, In h suffix ->
            Z.max (seq_historico d) (max_h_id (historico_alteracoes d)) < h_id h
            /\ h_id h <= seq_historico d')
      /\ NoDup (map h_id suffix).
Proof.
  induction fields as [|field rest IH]; intros d Hparent; cbn [log_fields List.filter].
  - split; [done|]. split; [done|]. exists []. rewrite app_nil_r.
    split; [done|]. split; [done|]. split; [lia|].
    split; [intros h [] | constructor].
  - fold (is_skipped field). destruct (is_skipped field); cbn [negb andb]; [by apply IH|].
    fold (differs old new field). destruct (differs old new field); [|by apply IH].
    unfold sql_insert_historico. rewrite Hparent.
    set (new_id := Z.max (seq_historico d) (max_h_id (historico_alteracoes d)) + 1).
    set (h := mk_historico new_id i field _ _ current_timestamp).
    set (d1 := mk_db _ _ _ _).
    destruct (IH d1 Hparent) as (Hi & Hs & suffix & Hh & Hm & Hseq & Hid & Hnd).
    split; [exact Hi|]. split; [exact Hs|].
    exists (h :: suffix). cbn [map]. rewrite Hh, Hm. cbn [historico_alteracoes d1].
    split; [by rewrite <- app_assoc|]. split; [done|].
    cbn [seq_historico d1] in Hseq, Hid. split; [lia|]. split.
    + intros h' [<- | Hin]; [cbn; lia|].
      destruct (Hid h' Hin) as [Hlo Hhi]. lia.
    + constructor; [|exact Hnd]. intros Hin. apply list_elem_of_In in Hin.
      apply in_map_iff in Hin as (h' & E & Hin).
      destruct (Hid h' Hin) as [Hlo _]. cbn in E. lia.
Qed.

Lemma dict_of_row_keys r :
  List.filter (fun field => negb (is_skipped field)) (map fst (dict_of_row r))
  = logged_columns.
Proof. reflexivity. Qed.

Lemma filter_filter_and {A} (p q : A -> bool) l :
  List.filter (fun x => p x && q x) l = List.filter q (List.filter p l).
Proof.
  induction l as [|x l IH]; [done|]. cbn [List.filter].
  destruct (p x); cbn [andb List.filter]; [destruct (q x)|]; by rewrite IH.
Qed.

Lemma forallb_map_row_of data rows :
  required_present data = true ->
  forallb not_null_ok
    (map (fun r => row_of (id r) data (created_at r) (VStr now)) rows) = true.
Proof.
  intros H. induction rows as [|r rows IH]; [done|]. cbn [map forallb].
  by rewrite not_null_ok_row_of, H, IH.
Qed.

Lemma get_by_id_some_row i d rec :
  get_inspection_by_id i d = Some rec ->
  exists row rest,
    List.filter (fun r => id r =? i) (inspecoes d) = row :: rest
    /\ rec = dict_of_row row /\ id row = i /\ In row (inspecoes d).
Proof.
  unfold get_inspection_by_id.
  destruct (List.filter _ (inspecoes d)) as [|row rest] eqn:E; [discriminate|].
  intros [= <-]. exists row, rest.
  assert (Hin : In row (List.filter (fun r => id r =? i) (inspecoes d)))
    by (rewrite E; by left).
  apply filter_In in Hin as [Hin Hid]. apply Z.eqb_eq in Hid. done.
Qed.

Lemma existsb_id_present i d rec :
  get_inspection_by_id i d = Some rec ->
  existsb (fun r => id r =? i) (inspecoes d) = true.
Proof.
  intros H. destruct (get_by_id_some_row _ _ _ H) as (row & _ & _ & _ & Hid & Hin).
  apply existsb_exists. exists row. split; [done | by apply Z.eqb_eq].
Qed.

(** What [update_inspection] does to a record that exists. *)
Lemma update_inspection_spec inspection_id data d old :
  get_inspection_by_id inspection_id d = Some old ->
  required_present data = true ->
  exists d' suffix,
    update_inspection now current_timestamp inspection_id data d = (true, d')
    /\ get_inspection_by_id inspection_id d'
       = Some (dict_of_row (row_of inspection_id data
                              (dict_get old "created_at" VNone) (VStr now)))
    /\ (forall j, j <> inspection_id ->
          get_inspection_by_id j d' = get_inspection_by_id j d)
    /\ map id (inspecoes d') = map id (inspecoes d)
    /\ historico_alteracoes d' = historico_alteracoes d ++ suffix
    /\ map log_entry suffix
       = map (fun field =>
                (inspection_id, field, str (dict_get old field (VStr "")),
                 str (get data field), current_timestamp))
             (List.filter (differs old data) logged_columns).
Proof.
  intros Hget Hreq.
  destruct (get_by_id_some_row _ _ _ Hget) as (row & rest & Hf & -> & Hid & Hin).
  unfold update_inspection. rewrite Hget.
  set (upd := fun r : inspecao => row_of (id r) data (created_at r) (VStr now)).
  change (sql_update_inspecao inspection_id _ d)
    with (sql_update_inspecao inspection_id upd d).
  unfold sql_update_inspecao.
  rewrite (forallb_map_row_of data _ Hreq). unfold _log_changes.
  set (d1 := mk_db _ _ _ _).
  assert (Hparent : existsb (fun r => id r =? inspection_id) (inspecoes d1) = true).
  { apply existsb_exists. exists (upd row). split; [|by apply Z.eqb_eq].
    cbn [inspecoes d1]. apply in_map_iff. exists row. split; [|done].
    by rewrite (proj2 (Z.eqb_eq _ _) Hid). }
  destruct (log_fields_spec inspection_id (dict_of_row row) data
              (map fst (dict_of_row row)) d1 Hparent)
    as (Hi & _ & suffix & Hh & Hm & _).
  eexists _, suffix. split; [reflexivity|].
  assert (Hfilter : forall j,
             List.filter (fun r => id r =? j) (inspecoes d1)
             = map (fun r => if id r =? inspection_id then upd r else r)
                   (List.filter (fun r => id r =? j) (inspecoes d)))
    by (intros j; apply filter_map_update; done).
  split.
  { unfold get_inspection_by_id. rewrite Hi, Hfilter, Hf. cbn [map].
    rewrite (proj2 (Z.eqb_eq _ _) Hid). by rewrite <- Hid. }
  split.
  { intros j Hj. unfold get_inspection_by_id.
    rewrite Hi, Hfilter, map_update_other by done. done. }
  split.
  { rewrite Hi. cbn [inspecoes d1]. rewrite map_map. apply map_ext.
    intros r. by destruct (id r =? inspection_id). }
  split; [exact Hh|].
  rewrite Hm, filter_filter_and, dict_of_row_keys. reflexivity.
Qed.

(** X14. Update, then get: for a record that exists and a dictionary whose
    values the table stores as they are given, [update_inspection]
    returns [True]; the record then holds the submitted fields, its creation
    time as before and the time of the update, and the other records stay
    as they were. *)
Theorem update_then_get inspection_id data d old :
  get_inspection_by_id inspection_id d = Some old ->
  stored_as_given data = true ->
  exists d',
    update_inspection now current_timestamp inspection_id data d = (true, d')
    /\ get_inspection_by_id inspection_id d'
       = Some (dict_of_row (row_of inspection_id data
                              (dict_get old "created_at" VNone) (VStr now)))
    /\ (forall j, j <> inspection_id ->
          get_inspection_by_id j d' = get_inspection_by_id j d)
    /\ map id (inspecoes d') = map id (inspecoes d).
Proof.
  intros Hget Hreq. apply stored_as_given_required in Hreq.
  destruct (update_inspection_spec inspection_id data d old Hget Hreq)
    as (d' & suffix & H1 & H2 & H3 & H4 & _).
  exists d'. auto.
Qed.



End DB.

Lemma fk_check_by_id i d :
  existsb (fun r => (id r =? i)
                    && existsb (fun h => inspecao_id h =? id r) (historico_alteracoes d))
          (inspecoes d)
  = existsb (fun r => id r =? i) (inspecoes d)
    && existsb (fun h => inspecao_id h =? i) (historico_alteracoes d).
Proof.
  induction (inspecoes d) as [|r rows IH]; [done|]. cbn [existsb]. rewrite IH.
  destruct (Z.eqb_spec (id r) i) as [-> | Hne]; cbn [andb orb]; [|done].
  by destruct (existsb _ (historico_alteracoes d)); cbn; rewrite ?orb_true_r, ?andb_false_r.
Qed.

Lemma filter_removed i rows :
  List.filter (fun r => id r =? i) (List.filter (fun r => negb (id r =? i)) rows) = [].
Proof.
  induction rows as [|r rows IH]; [done|]. cbn [List.filter].
  destruct (id r =? i) eqn:E; cbn [negb List.filter]; [done|]. by rewrite E.
Qed.

Lemma filter_kept i j rows :
  j <> i ->
  List.filter (fun r => id r =? j) (List.filter (fun r => negb (id r =? i)) rows)
  = List.filter (fun r => id r =? j) rows.
Proof.
  intros Hne. induction rows as [|r rows IH]; [done|]. cbn [List.filter].
  destruct (Z.eqb_spec (id r) i) as [E | E]; cbn [negb List.filter].
  - destruct (Z.eqb_spec (id r) j); [lia | done].
  - destruct (id r =? j); by rewrite IH.
Qed.

(** X16. Delete of a record that the log does not mention: [True]; the record
    is no longer found, the other records and the log stay, and of the
    files only the photo of the record can go: it is removed when it is
    there and its removal does not raise. *)
Theorem delete_existing inspection_id d f old :
  get_inspection_by_id inspection_id d = Some old ->
  existsb (fun h => inspecao_id h =? inspection_id) (historico_alteracoes d) = false ->
  exists d' f',
    delete_inspection inspection_id (d, f) = (true, (d', f'))
    /\ get_inspection_by_id inspection_id d' = None
    /\ (forall j, j <> inspection_id ->
          get_inspection_by_id j d' = get_inspection_by_id j d)
    /\ historico_alteracoes d' = historico_alteracoes d
    /\ (forall s, s ∈ files f'
          <-> s ∈ files f
              /\ ~ (dict_get old "foto_path" VNone = VStr s /\ s <> ""
                    /\ s ∉ undeletable f)).
Proof.
  intros Hget Hlog. unfold delete_inspection, sql_delete_inspecoes.
  rewrite Hget, fk_check_by_id, Hlog, andb_false_r.
  eexists _, _. split; [reflexivity|]. unfold get_inspection_by_id. cbn [inspecoes].
  split; [by rewrite filter_removed|].
  split; [intros j Hj; by rewrite filter_kept|].
  split; [done|]. intros s. apply remove_photo_files.
Qed.

(** X17. Delete of a record that the log mentions: the foreign key refuses it.
    The operation returns [False] and both tables stay as they were, but
    the photo of the record has been removed before. *)
Theorem delete_blocked_by_log inspection_id d f old :
  get_inspection_by_id inspection_id d = Some old ->
  existsb (fun h => inspecao_id h =? inspection_id) (historico_alteracoes d) = true ->
  exists f',
    delete_inspection inspection_id (d, f) = (false, (d, f'))
    /\ (forall s, s ∈ files f'
          <-> s ∈ files f
              /\ ~ (dict_get old "foto_path" VNone = VStr s /\ s <> ""
                    /\ s ∉ undeletable f)).
Proof.
  intros Hget Hlog. unfold delete_inspection, sql_delete_inspecoes.
  rewrite Hget, fk_check_by_id, Hlog, (existsb_id_present _ _ _ Hget).
  eexists. split; [reflexivity|]. intros s. apply remove_photo_files.
Qed.


Lemma NoDup_filter_ids (p : inspecao -> bool) rows :
  NoDup (map id rows) -> NoDup (map id (List.filter p rows)).
Proof.
  induction rows as [|r rows IH]; [done|]. cbn [map List.filter].
  rewrite NoDup_cons. intros [Hn Hd]. destruct (p r); [|by apply IH].
  cbn [map]. apply NoDup_cons. split; [|by apply IH].
  rewrite list_elem_of_In in *. rewrite in_map_iff in *.
  intros (x & E & Hin). apply Hn. exists x. split; [done|].
  by apply filter_In in Hin as [? _].
Qed.

Lemma save_step_facts now data d :
  let d' := snd (save_inspection now data d) in
  seq_inspecoes d <= seq_inspecoes d'
  /\ (consistent d -> consistent d').
Proof.
  unfold save_inspection, sql_insert_inspecao.
  set (new_id := Z.max (seq_inspecoes d) (max_id (inspecoes d)) + 1).
  destruct (not_null_ok _); cbn [snd]; [|by split]. cbn [seq_inspecoes].
  split; [lia|]. intros (Hnd & Hseq & Hfk). unfold consistent. cbn [inspecoes
    seq_inspecoes historico_alteracoes]. split; [|split].
  - rewrite map_app. cbn [map id]. apply NoDup_app. split; [done|]. split.
    + intros x Hx Hin. apply list_elem_of_In in Hx. apply in_map_iff in Hx as (r & <- & Hr).
      apply list_elem_of_In in Hin. cbn in Hin. pose proof (max_id_ge _ _ Hr). lia.
    + apply NoDup_singleton.
  - intros r Hr. apply in_app_iff in Hr as [Hr | [<- | []]]; [|cbn; lia].
    pose proof (max_id_ge _ _ Hr). lia.
  - intros h Hh. rewrite existsb_app. by rewrite (Hfk h Hh).
Qed.

Lemma existsb_map_update i j (upd : inspecao -> inspecao) rows :
  (forall r, id (upd r) = id r) ->
  existsb (fun r => id r =? j) (map (fun r => if id r =? i then upd r else r) rows)
  = existsb (fun r => id r =? j) rows.
Proof.
  intros Hupd. induction rows as [|r rows IH]; [done|].
  cbn [map existsb]. rewrite IH. destruct (id r =? i); by rewrite ?Hupd.
Qed.

Lemma update_step_facts now ts i data d :
  let d' := snd (update_inspection now ts i data d) in
  seq_inspecoes d <= seq_inspecoes d'
  /\ (consistent d -> consistent d').
Proof.
  unfold update_inspection.
  destruct (get_inspection_by_id i d) as [old|] eqn:Hget; cbn [snd]; [|by split].
  match goal with |- context [sql_update_inspecao i ?u d] => set (upd := u) end.
  assert (Hupd : forall r, id (upd r) = id r) by done.
  clearbody upd.
  unfold sql_update_inspecao. destruct (forallb _ _); cbn [snd]; [|by split].
  set (d1 := mk_db _ _ _ _).
  assert (Hids : map id (inspecoes d1) = map id (inspecoes d)).
  { cbn [inspecoes d1]. rewrite map_map. apply map_ext. intros r.
    destruct (id r =? i); by rewrite ?Hupd. }
  assert (Hex : forall j, existsb (fun r => id r =? j) (inspecoes d1)
                          = existsb (fun r => id r =? j) (inspecoes d)).
  { intros j. by apply existsb_map_update. }
  assert (Hparent : existsb (fun r => id r =? i) (inspecoes d1) = true)
    by (rewrite Hex; by eapply existsb_id_present).
  unfold _log_changes.
  destruct (log_fields_spec ts i old data (map fst old) d1 Hparent)
    as (Hi & Hs & suffix & Hh & Hm & _).
  split; [by rewrite Hs|].
  intros (Hnd & Hseq & Hfk). unfold consistent. rewrite Hi, Hs, Hh, Hids.
  split; [done|]. split.
  - intros r Hr. cbn [inspecoes d1] in Hr. apply in_map_iff in Hr as (r0 & <- & Hr0).
    cbn [seq_inspecoes d1]. specialize (Hseq r0 Hr0).
    destruct (id r0 =? i); by rewrite ?Hupd.
  - intros h Hh'. rewrite Hex. apply in_app_iff in Hh' as [Hh' | Hh'].
    + by apply Hfk.
    + assert (Hid : inspecao_id h = i).
      { assert (In (log_entry h) (map log_entry suffix)) as Hin by (by apply in_map).
        rewrite Hm in Hin. apply in_map_iff in Hin as (field & E & _).
        unfold log_entry in E. by injection E as <-. }
      rewrite Hid, <- Hex. exact Hparent.
Qed.

Lemma delete_step_facts i d f :
  let d' := fst (snd (delete_inspection i (d, f))) in
  seq_inspecoes d <= seq_inspecoes d'
  /\ (consistent d -> consistent d').
Proof.
  unfold delete_inspection, sql_delete_inspecoes. rewrite fk_check_by_id.
  destruct (existsb (fun r => id r =? i) (inspecoes d)
            && existsb (fun h => inspecao_id h =? i) (historico_alteracoes d)) eqn:E;
    cbn [fst snd]; [by split|].
  cbn [seq_inspecoes]. split; [lia|].
  intros (Hnd & Hseq & Hfk). unfold consistent. cbn [inspecoes seq_inspecoes
    historico_alteracoes]. split; [by apply NoDup_filter_ids|]. split.
  - intros r Hr. apply filter_In in Hr as [Hr _]. by apply Hseq.
  - intros h Hh. specialize (Hfk h Hh).
    apply existsb_exists in Hfk as (r & Hr & Hid). apply Z.eqb_eq in Hid.
    apply existsb_exists. exists r. split; [|by apply Z.eqb_eq].
    apply filter_In. split; [done|]. apply negb_true_iff, Z.eqb_neq. intros Heq. subst i.
    apply andb_false_iff in E as [E | E].
    + assert (existsb (fun r0 => id r0 =? id r) (inspecoes d) = true) as Hc
        by (apply existsb_exists; exists r; split; [done | apply Z.eqb_refl]).
      congruence.
    + assert (existsb (fun h0 => inspecao_id h0 =? id r) (historico_alteracoes d) = true)
        as Hc by (apply existsb_exists; exists h; split; [done | by apply Z.eqb_eq]).
      congruence.
Qed.

Lemma clear_step_facts d f :
  let d' := fst (snd (clear_all_inspections (d, f))) in
  seq_inspecoes d <= seq_inspecoes d'
  /\ (consistent d -> consistent d').
Proof.
  unfold clear_all_inspections, sql_delete_inspecoes.
  destruct (existsb _ (inspecoes d)); cbn [fst snd]; [by split|].
  cbn [sql_delete_historico inspecoes seq_inspecoes]. split; [lia|].
  intros _. unfold consistent. cbn [inspecoes historico_alteracoes].
  rewrite filter_all_doomed. split; [constructor|]. split; by intros ? [].
Qed.

Lemma db_step_facts d d' :
  db_step d d' -> seq_inspecoes d <= seq_inspecoes d' /\ (consistent d -> consistent d').
Proof.
  intros [now data d0 | now ts i data d0 | i d0 f | d0 f].
  - apply save_step_facts.
  - apply update_step_facts.
  - apply delete_step_facts.
  - apply clear_step_facts.
Qed.

(** X18. Whatever operations follow one another from a consistent database,
    identifiers stay unique and below the counter and the log keeps
    referencing records that exist. *)
Theorem consistency_is_kept d d' : consistent d -> rtc db_step d d' -> consistent d'.
Proof.
  intros Hc Hr. induction Hr as [|d d1 d2 Hstep _ IH]; [done|].
  apply IH. by apply (db_step_facts d d1).
Qed.

Lemma rtc_seq_mono d d' : rtc db_step d d' -> seq_inspecoes d <= seq_inspecoes d'.
Proof.
  induction 1 as [|d d1 d2 Hstep _ IH]; [lia|].
  pose proof (proj1 (db_step_facts d d1 Hstep)). lia.
Qed.

(** X19. An identifier is never given twice: a save that comes after another,
    with any operations in between, deletions included, returns a greater
    identifier. *)
Theorem identifiers_are_never_reused now1 data1 d i1 d1 d2 now2 data2 i2 d3 :
  save_inspection now1 data1 d = (Ok i1, d1) ->
  rtc db_step d1 d2 ->
  save_inspection now2 data2 d2 = (Ok i2, d3) ->
  i1 < i2.
Proof.
  unfold save_inspection, sql_insert_inspecao. intros H1 Hr H2.
  destruct (not_null_ok _); [|discriminate]. injection H1 as <- <-.
  destruct (not_null_ok _); [|discriminate]. injection H2 as <- _.
  pose proof (rtc_seq_mono _ _ Hr) as Hs. cbn [seq_inspecoes] in Hs. lia.
Qed.

End MoreDatabase.

(** ** [report_generator.py] and [main.py] *)

Section MoreReports.

Import Derived Database ReportGenerator InspectionFormApp DateValidator.
Local Open Scope string_scope.
Local Open Scope list_scope.
Local Open Scope Z_scope.

Ltac run := cbn [mbind result_bind Py.bind Py.except_ValueError].


Lemma record_of_row_lookups r dflt :
  get_or (record_of_row r) "ultima" dflt = dflt
  /\ get_or (record_of_row r) "tipoEquipamento" dflt = dflt
  /\ get_or (record_of_row r) "tag" dflt = tag r
  /\ get_or (record_of_row r) "plataforma" dflt = plataforma r
  /\ get_or (record_of_row r) "foto_path" dflt = foto_path r.
Proof. repeat split; reflexivity. Qed.

Section R.
Variable output_dir : string.
Variable today : date.
Variable generated_at : string.
Variable fs : filesystem.
Variable image_error : string -> option string.
Variable doc_build : string -> list flowable -> result unit.

Lemma count_overdue_bound inspections k :
  count_overdue today inspections = Ok k -> 0 <= k <= Z.of_nat (length inspections).
Proof.
  revert k. induction inspections as [|x rest IH]; intros k; cbn [count_overdue length].
  - intros [= <-]. lia.
  - destruct (if truthy _ then _ else _) as [overdue | e]; [|discriminate].
    cbn [mbind result_bind Py.bind].
    destruct (count_overdue today rest) as [n | e]; [|discriminate].
    cbn [mbind result_bind Py.bind]. intros [= <-]. specialize (IH n eq_refl).
    destruct overdue; lia.
Qed.

(** X20. The three numbers of the summary: the total, the overdue records and
    the records on time add up, and the overdue ones are at most all. *)
Theorem summary_statistics_add_up inspections section :
  _create_summary_statistics today inspections = Ok section ->
  exists overdue on_time,
    section
    = [Paragraph (VStr "ESTATÍSTICAS GERAIS") subtitle_style;
       Table [[VStr "Métrica"; VStr "Valor"];
              [VStr "Total de Inspeções"; VStr (pretty (Z.of_nat (length inspections)))];
              [VStr "Inspeções Vencidas"; VStr (pretty overdue)];
              [VStr "Inspeções em Dia"; VStr (pretty on_time)]]]
    /\ overdue + on_time = Z.of_nat (length inspections)
    /\ 0 <= overdue /\ 0 <= on_time.
Proof.
  unfold _create_summary_statistics.
  destruct (count_overdue today inspections) as [k | e] eqn:E; [|discriminate].
  cbn [mbind result_bind Py.bind]. intros [= <-].
  pose proof (count_overdue_bound _ _ E).
  eexists _, _. split; [reflexivity|]. lia.
Qed.

(** X21. For records as the database returns them, whose last inspection is
    under the key [ultima_inspecao], the summary counts no record as
    overdue and shows N/A as the status of each, whatever its dates. *)
Theorem summary_of_database_rows rows :
  let inspections := map record_of_row rows in
  count_overdue today inspections = Ok 0
  /\ summary_rows today inspections
     = Ok (map (fun r => [tag r; VStr "N/A"; plataforma r; VStr "N/A"; VStr "N/A"]) rows).
Proof.
  cbn zeta. induction rows as [|r rows [IH1 IH2]]; [done|].
  cbn [map count_overdue summary_rows].
  destruct (record_of_row_lookups r (VStr "")) as (-> & _).
  destruct (record_of_row_lookups r (VStr "N/A")) as (-> & -> & -> & -> & _).
  rewrite IH1, IH2. by cbn.
Qed.

End R.

Lemma collect_form_data_lookups f :
  get (collect_form_data f) "plataforma" = VStr (strip (plataforma_var f))
  /\ get (collect_form_data f) "tag" = VStr (strip (tag_var f))
  /\ get (collect_form_data f) "foto_path" = VStr (default "" (current_photo_path f)).
Proof. repeat split; reflexivity. Qed.



Section L.
Variable today : date.
Variable exn_text : exn -> string.

(** X23. The colour of the status label: red when the inspection is overdue,
    orange up to 90 days before the due date, green after that; green also
    for a text of ASCII characters that is no date, and red when the status
    cannot be computed. *)
Theorem status_label_colour s :
  (forall last, strptime s = Ok last -> valid_ordinal (last + 360) = true ->
     snd (InspectionFormApp.update_inspection_status today exn_text s)
     = (let d := last + 360 - today in
        if d <? 0 then "#e74c3c" else if d <=? 90 then "#f39c12" else "#27ae60"))
  /\ (is_ascii s = true -> written_as_date s = false ->
      snd (InspectionFormApp.update_inspection_status today exn_text s) = "#27ae60")
  /\ (forall last, strptime s = Ok last -> valid_ordinal (last + 360) = false ->
        InspectionFormApp.update_inspection_status today exn_text s
        = ("Erro ao calcular status: " +:+ exn_text OverflowError, "#e74c3c")).
Proof.
  rewrite <- well_formed_written.
  unfold InspectionFormApp.update_inspection_status, get_inspection_status.
  split; [|split].
  - intros last Hs Hv. rewrite (strptime_nonempty _ _ Hs), Hs. run.
    rewrite (timedelta_ok (12 * 30) ltac:(lia)). run.
    rewrite (date_add_ok last (12 * 30) Hv). run.
    change (12 * 30) with 360. cbn zeta.
    destruct (Z.ltb_spec (last + 360 - today) 0); [reflexivity|].
    destruct (Z.leb_spec (last + 360 - today) 30).
    + destruct (Z.leb_spec (last + 360 - today) 90); [reflexivity | lia].
    + destruct (Z.leb_spec (last + 360 - today) 90); reflexivity.
  - intros _ Hw. rewrite (not_well_formed _ Hw). run.
    by destruct (String.eqb s "").
  - intros last Hs Hv. rewrite (strptime_nonempty _ _ Hs), Hs. run.
    rewrite (timedelta_ok (12 * 30) ltac:(lia)). run.
    unfold date_add. change (12 * 30) with 360. by rewrite Hv.
Qed.

End L.

Section P.
Import PhotoHandler.

Lemma os_remove_files f s f' :
  os_remove f (VStr s) = Ok f' ->
  s ∈ files f /\ files f' = files f ∖ {[s]} /\ undeletable f' = undeletable f.
Proof.
  unfold os_remove. case_bool_decide as Hin; [|discriminate].
  destruct (negb _); [|discriminate]. cbn. by intros [= <-].
Qed.

(** X24. [delete_photo]: nothing happens and [False] comes back for a photo
    that is not there; after [True] neither the photo nor its thumbnail is
    on the disk; and no other file is ever removed. *)
Theorem delete_photo_removes_only_the_photo f photo_path :
  let '(ok, f') := delete_photo f photo_path in
  let thumbnail_path := _get_thumbnail_path photo_path in
  ((photo_path ∉ files f) -> ok = false /\ f' = f)
  /\ (ok = true -> (photo_path ∉ files f') /\ (thumbnail_path ∉ files f'))
  /\ (forall s, s <> photo_path -> s <> thumbnail_path ->
        (s ∈ files f' <-> s ∈ files f))
  /\ files f' ⊆ files f.
Proof.
  unfold delete_photo, path_exists.
  case_bool_decide as Hin; cbn [negb];
    [|split; [done|]; split; [discriminate|]; split; done].
  destruct (os_remove f (VStr photo_path)) as [f1 | e] eqn:E1;
    [|split; [done|]; split; [discriminate|]; split; done].
  apply os_remove_files in E1 as (_ & Hf1 & _).
  assert (Hsub : forall s, s ∈ files f1 <-> s ∈ files f /\ s <> photo_path)
    by (intros s; rewrite Hf1, elem_of_difference, elem_of_singleton; tauto).
  case_bool_decide as Hth.
  - destruct (os_remove f1 (VStr (_get_thumbnail_path photo_path))) as [f2 | e] eqn:E2.
    + apply os_remove_files in E2 as (_ & Hf2 & _).
      assert (Hsub2 : forall s, s ∈ files f2
                                <-> s ∈ files f1 /\ s <> _get_thumbnail_path photo_path)
        by (intros s; rewrite Hf2, elem_of_difference, elem_of_singleton; tauto).
      split; [by intros Hn|]. split; [|split].
      * intros _. rewrite !Hsub2, !Hsub. tauto.
      * intros s H1 H2. rewrite Hsub2, Hsub. tauto.
      * intros s. rewrite Hsub2, Hsub. tauto.
    + split; [by intros Hn|]. split; [discriminate|]. split.
      * intros s H1 H2. rewrite Hsub. tauto.
      * intros s. rewrite Hsub. tauto.
  - split; [by intros Hn|]. split; [|split].
    + intros _. rewrite Hsub. tauto.
    + intros s H1 H2. rewrite Hsub. tauto.
    + intros s. rewrite Hsub. tauto.
Qed.

End P.

End MoreReports.

(** ** The further properties on sample inputs *)

Section MoreExamples.
Import Calendar Strptime Database Derived Examples.
Local Open Scope string_scope.
Local Open Scope list_scope.
Local Open Scope Z_scope.

Lemma validation_windows_witness :
  exists msg,
    DateValidator.validate_inspection_date (_ymd2ord 2025 1 10) "2025-01-05"
    = Ok ((_ymd2ord 2025 1 10 - 30 <=? _ymd2ord 2025 1 5)
          && (_ymd2ord 2025 1 5 <=? _ymd2ord 2025 1 10), msg).
Proof.
  exact (proj1 (validation_windows (_ymd2ord 2025 1 10) "2025-01-05"
                  (_ymd2ord 2025 1 5) eq_refl) eq_refl).
Defined.

Lemma date_range_window_witness :
  exists msg,
    DateValidator.validate_date_range "2024-01-01" "2024-12-31"
    = Ok ((_ymd2ord 2024 1 1 <=? _ymd2ord 2024 12 31)
          && (_ymd2ord 2024 12 31 - _ymd2ord 2024 1 1 <=? 365), msg).
Proof.
  exact (date_range_window "2024-01-01" "2024-12-31" _ _ eq_refl eq_refl).
Defined.

Lemma overdue_is_monotone_witness :
  DateValidator.is_overdue (_ymd2ord 2025 4 1) "2024-03-15" 12 = Ok true.
Proof.
  apply (proj1 (overdue_is_monotone (_ymd2ord 2025 3 11) "2024-03-15" 12
                  (_ymd2ord 2025 4 1) ltac:(vm_compute; discriminate))).
  reflexivity.
Defined.

Lemma add_days_compose_witness :
  DateValidator.add_days "2025-03-10" 5 = DateValidator.add_days "2024-03-15" (360 + 5).
Proof.
  exact (add_days_compose "2024-03-15" (_ymd2ord 2024 3 15) 360 5 "2025-03-10"
           eq_refl eq_refl eq_refl).
Defined.

Lemma add_days_round_trip_witness :
  DateValidator.add_days "2025-03-10" (- 360)
  = Ok (pad4 2024 +:+ "-" +:+ pad2 3 +:+ "-" +:+ pad2 15).
Proof.
  exact (add_days_round_trip "2024-03-15" 2024 3 15 360 "2025-03-10"
           eq_refl eq_refl ltac:(lia) eq_refl eq_refl).
Defined.

Lemma next_date_is_add_days_witness :
  DateValidator.calculate_next_inspection_date "2024-03-15" 12
  = DateValidator.add_days "2024-03-15" (12 * 30).
Proof. exact (proj1 (next_date_is_add_days "2024-03-15" 12) eq_refl). Defined.

Lemma format_date_shows_the_day_witness :
  DateValidator.format_date (_ymd2ord 2025 1 10) (fun _ => "março") "2024-03-15"
  = Ok (pad2 15 +:+ "/" +:+ pad2 3 +:+ "/" +:+ pad4 2024).
Proof.
  exact (proj1 (format_date_shows_the_day (_ymd2ord 2025 1 10) (fun _ => "março")
                  "2024-03-15") 2024 3 15 eq_refl eq_refl ltac:(lia)).
Defined.


Lemma working_days_between_witness :
  exists n,
    DateValidator.get_working_days_between "2025-01-06" "2025-01-12" = Some (Ok n)
    /\ n = 5.
Proof.
  destruct (working_days_between "2025-01-06" "2025-01-12" (_ymd2ord 2025 1 6)
              (_ymd2ord 2025 1 12) eq_refl eq_refl eq_refl)
    as (n & Hn & _ & _ & _ & H5).
  exists n. split; [exact Hn | apply H5; reflexivity].
Defined.

Lemma working_days_edges_witness :
  DateValidator.get_working_days_between "2025-01-06" "12/01/2025" = Some (Ok 0).
Proof.
  exact (proj2 (working_days_edges "2025-01-06" "12/01/2025")
           (or_intror (conj eq_refl eq_refl))).
Defined.

Lemma save_inspection_refuses_only_none_witness :
  exists new_id row d',
    save_inspection "2025-01-10T09:00:00" ∅ stored_db = (Ok new_id, d')
    /\ inspecoes d' = inspecoes stored_db ++ [row]
    /\ plataforma row = VStr "" /\ tipo_dano row = VStr "".
Proof.
  edestruct (save_inspection_refuses_only_none "2025-01-10T09:00:00" ∅ stored_db)
    as [H _]; [vm_compute; reflexivity|].
  destruct H as (new_id & row & d' & Hs & Hi & _ & Hc); [vm_compute; reflexivity|].
  exists new_id, row, d'. split; [exact Hs|]. split; [exact Hi|]. split.
  - apply (Hc "plataforma" plataforma); [by left | reflexivity].
  - apply (Hc "tipoDano" tipo_dano); [cbn; tauto | reflexivity].
Defined.


Lemma null_field_is_rejected_witness :
  save_inspection "2025-01-10T09:00:00" (<["tag" := VNone]> form_data) stored_db
  = (Raise IntegrityError, stored_db).
Proof.
  refine (proj1 (null_field_is_rejected "2025-01-10T09:00:00" "2025-01-11 10:00:00"
                   (<["tag" := VNone]> form_data) stored_db _ _));
    vm_compute; reflexivity.
Defined.

Lemma update_then_get_witness :
  exists d',
    update_inspection "2025-02-01T08:00:00" "2025-02-01 08:00:00" 1
      (<["tag" := VStr "TQ-002"]> form_data) stored_db = (true, d')
    /\ get_inspection_by_id 1 d'
       = Some (dict_of_row (row_of 1 (<["tag" := VStr "TQ-002"]> form_data)
                              (VStr "2025-01-10T09:00:00")
                              (VStr "2025-02-01T08:00:00"))).
Proof.
  edestruct (update_then_get "2025-02-01T08:00:00" "2025-02-01 08:00:00" 1
               (<["tag" := VStr "TQ-002"]> form_data) stored_db)
    as (d' & Hu & Hg & _); [vm_compute; reflexivity | vm_compute; reflexivity |].
  exists d'. split; [exact Hu | exact Hg].
Defined.


Lemma delete_existing_witness :
  exists d' f',
    delete_inspection 1 (stored_db, empty_fs) = (true, (d', f'))
    /\ get_inspection_by_id 1 d' = None.
Proof.
  edestruct (delete_existing 1 stored_db empty_fs)
    as (d' & f' & Hd & Hg & _); [vm_compute; reflexivity | vm_compute; reflexivity |].
  exists d', f'. split; assumption.
Defined.

Lemma delete_blocked_by_log_witness :
  exists f',
    delete_inspection 1
      (snd (update_inspection "2025-02-01T08:00:00" "2025-02-01 08:00:00" 1
              form_data stored_db), empty_fs)
    = (false,
       (snd (update_inspection "2025-02-01T08:00:00" "2025-02-01 08:00:00" 1
               form_data stored_db), f')).
Proof.
  edestruct (delete_blocked_by_log 1
              (snd (update_inspection "2025-02-01T08:00:00" "2025-02-01 08:00:00" 1
                      form_data stored_db)) empty_fs)
    as (f' & Hd & _); [vm_compute; reflexivity | vm_compute; reflexivity |].
  exists f'. exact Hd.
Defined.

Lemma consistency_is_kept_witness :
  consistent (fst (snd (delete_inspection 1 (stored_db, empty_fs)))).
Proof.
  apply (consistency_is_kept empty_db).
  - repeat split; [constructor | intros ? [] | intros ? []].
  - eapply rtc_l; [apply (step_save "2025-01-10T09:00:00" form_data)|].
    apply rtc_once. apply (step_delete 1 stored_db empty_fs).
Defined.

Lemma identifiers_are_never_reused_witness : 1 < 2.
Proof.
  apply (identifiers_are_never_reused "2025-01-10T09:00:00" form_data empty_db 1
           stored_db (fst (snd (delete_inspection 1 (stored_db, empty_fs))))
           "2025-01-11T09:00:00" form_data 2
           (snd (save_inspection "2025-01-11T09:00:00" form_data
                   (fst (snd (delete_inspection 1 (stored_db, empty_fs))))))).
  - reflexivity.
  - apply rtc_once. apply (step_delete 1 stored_db empty_fs).
  - reflexivity.
Defined.

Lemma summary_statistics_add_up_witness :
  exists overdue on_time,
    ReportGenerator._create_summary_statistics (_ymd2ord 2025 4 1)
      [form_data; <["ultima" := VStr ""]> form_data]
    = Ok [ReportGenerator.Paragraph (VStr "ESTATÍSTICAS GERAIS")
            ReportGenerator.subtitle_style;
          ReportGenerator.Table
            [[VStr "Métrica"; VStr "Valor"];
             [VStr "Total de Inspeções"; VStr (pretty 2)];
             [VStr "Inspeções Vencidas"; VStr (pretty overdue)];
             [VStr "Inspeções em Dia"; VStr (pretty on_time)]]]
    /\ overdue + on_time = 2.
Proof.
  edestruct (summary_statistics_add_up (_ymd2ord 2025 4 1)
               [form_data; <["ultima" := VStr ""]> form_data])
    as (overdue & on_time & Hs & Hsum & _); [vm_compute; reflexivity|].
  exists overdue, on_time. split; [|exact Hsum].
  etransitivity; [vm_compute; reflexivity | exact (f_equal Ok Hs)].
Defined.

Lemma status_label_colour_witness :
  snd (InspectionFormApp.update_inspection_status (_ymd2ord 2025 4 1)
         (fun _ => "date value out of range") "2024-03-15")
  = "#e74c3c".
Proof.
  exact (proj1 (status_label_colour (_ymd2ord 2025 4 1)
                  (fun _ => "date value out of range") "2024-03-15")
           (_ymd2ord 2024 3 15) eq_refl eq_refl).
Defined.


End MoreExamples.
